(** * dynon-skyview-utils: userdatalog_gps_to_kml.py

    A shallow embedding of the User Data Log to KML converter and the
    properties of its row validator, session indexer and conversion
    driver.

    Python integers are [nat] (row and session counters, which never go
    below zero) or [Z] (parsed field values); Python floats are binary64
    values ([PrimFloat.float]); text is [string]; the output directory is
    a finite map from file names to contents. *)

From Stdlib Require Import ZArith Ascii String Uint63 DecimalString DecimalNat.
From Stdlib Require Import Floats.PrimFloat Floats.SpecFloat Floats.FloatOps.
From stdpp Require Import gmap strings list.

Local Open Scope Z_scope.

(** ** Exceptions and results *)

(** The exceptions the script can raise at run time. *)
Inductive exn : Type :=
  | ValueError
  | TypeError
  | IndexError
  | ZeroDivisionError
  | AttributeError
  | KeyError
  | FileNotFoundError.

Inductive Result (A : Type) : Type :=
  | OK (a : A)
  | Raise (e : exn).
Arguments OK {A} a.
Arguments Raise {A} e.

#[global] Instance exn_eq_dec : EqDecision exn.
Proof. solve_decision. Defined.

#[global] Instance Result_ret : MRet Result := @OK.
#[global] Instance Result_bind : MBind Result := fun A B f m =>
  match m with
  | OK a => f a
  | Raise e => Raise e
  end.

(** ** The built-in conversions

    [int(str)], [float(str)], [str(float)] and [str.format] are Python
    built-ins; the script only relies on their signatures: parsing either
    yields a number or raises [ValueError] ([None] here). [py_format
    pattern] is the way [pattern.format(session_number=id)] reads the
    pattern: it raises ([ValueError] on a brace that is neither doubled nor
    part of a replacement field, [KeyError] or [IndexError] on a field of
    another name), or it returns, for every [id], the text before the
    field, [id], and the text after it, doubled braces read as single
    ones. A pattern that names the session number twice or not at all, or
    converts it, is outside the model; the pattern [main] builds names it
    once at its end. The KML header and footer texts are
    read from template files outside the script; [kml_header id] is the
    header with its three placeholders set to [id]. *)
Class Builtins := {
  py_int : string → option Z;
  py_float : string → option float;
  py_str_float : float → string;
  py_format : string → Result (string * string);
  kml_header : string → string;
  kml_footer : string
}.

(** ** Rows and configuration *)

(** One row handed out by [csv.DictReader]: the value of every column the
    script reads. A value is text, or [None] when the line was too short to
    reach the column. *)
Record Row := {
  col_session_time : option string;     (* 'Session Time' *)
  col_fix_quality : option string;      (* 'GPS Fix Quality' *)
  col_num_sats : option string;         (* 'Number of Satellites' *)
  col_date_and_time : option string;    (* 'GPS Date & Time' *)
  col_lat : option string;              (* 'Latitude (deg)' *)
  col_lon : option string;              (* 'Longitude (deg)' *)
  col_alt : option string               (* 'GPS Altitude (feet)' *)
}.

(** The members of [Config] the conversion reads. [kml_output_filename] is
    the pattern of the output file names, a format string. *)
Record Config := {
  kml_output_filename : string;
  min_fix_quality : Z;
  min_satellites : Z
}.

(** [0.3048] denotes the binary64 value nearest to it, as in Python. *)
#[warnings="-inexact-float"]
Definition METERS_PER_FOOT : float := 0.3048%float.

Definition CRLF : string := String "013"%char (String "010"%char "").

(** Python's [not x] on a value that is text or [None]. *)
Definition blank (x : option string) : bool :=
  match x with
  | None => true
  | Some s => bool_decide (s = "")
  end.

Definition text (x : option string) : string := default "" x.

(** [float(n)] of an integer; exact below 2^53, which no row or session
    count of a log file reaches. *)
Definition float_of_Z (z : Z) : float :=
  match z with
  | Z0 => 0%float
  | Zpos _ => of_uint63 (Uint63.of_Z z)
  | Zneg _ => (- of_uint63 (Uint63.of_Z (- z)))%float
  end.

Definition float_of_nat (n : nat) : float := float_of_Z (Z.of_nat n).

(** [a / b] of a float by an integer. *)
Definition truediv (a : float) (b : nat) : Result float :=
  if (b =? 0)%nat then Raise ZeroDivisionError else OK (a / float_of_nat b)%float.

(** [l[i]] for an index that is not negative. *)
Definition index (l : list nat) (i : nat) : Result nat :=
  match l !! i with
  | Some x => OK x
  | None => Raise IndexError
  end.

Section Converter.
Context `{!Builtins}.

(** [int(x)] and [float(x)] on a value that is text or [None]. *)
Definition int_of (x : option string) : Result Z :=
  match x with
  | None => Raise TypeError
  | Some s => match py_int s with Some n => OK n | None => Raise ValueError end
  end.

Definition float_of (x : option string) : Result float :=
  match x with
  | None => Raise TypeError
  | Some s => match py_float s with Some f => OK f | None => Raise ValueError end
  end.

(** ** Row validator *)

Definition kml_string (lon lat alt_meters : string) : string :=
  lon +:+ "," +:+ lat +:+ "," +:+ alt_meters +:+ CRLF.

Definition generate_kml_coordinate_string (cfg : Config) (csv_row : Row)
  : Result (option string) :=
  let fix_quality := col_fix_quality csv_row in
  let num_sats := col_num_sats csv_row in
  let date_and_time := col_date_and_time csv_row in
  if blank fix_quality || blank num_sats || blank date_and_time then OK None
  else
    q ← int_of fix_quality;
    if q <? min_fix_quality cfg then OK None
    else
      n ← int_of num_sats;
      if n <? min_satellites cfg then OK None
      else
        let lat := col_lat csv_row in
        let lon := col_lon csv_row in
        let alt := col_alt csv_row in
        if blank lat || blank lon || blank alt then OK None
        else
          a ← float_of alt;
          let alt_meters := py_str_float (a * METERS_PER_FOOT)%float in
          OK (Some (kml_string (text lon) (text lat) alt_meters)).

(** ** Session indexer *)

(** [for csv_row in csv_reader: body]: the loop body runs on each row in
    file order; an exception ends the loop. *)
Fixpoint for_each {S A : Type} (body : S → A → Result S) (st : S) (l : list A)
  : Result S :=
  match l with
  | [] => OK st
  | x :: l' => st' ← body st x; for_each body st' l'
  end.

(** The local variables of [get_session_list]. *)
Record IndexerState := {
  ix_session_list : list nat;
  ix_csv_row_index : nat;
  ix_last_session_time : float
}.

Definition indexer_init : IndexerState :=
  {| ix_session_list := []; ix_csv_row_index := 0;
     ix_last_session_time := (-1)%float |}.

Definition indexer_body (st : IndexerState) (csv_row : Row) : Result IndexerState :=
  let session_time := col_session_time csv_row in
  if blank session_time then OK st
  else
    session_time ← float_of session_time;
    let session_list :=
      if (ix_csv_row_index st =? 0)%nat
         || (session_time <? ix_last_session_time st)%float
      then ix_session_list st ++ [ix_csv_row_index st]
      else ix_session_list st in
    OK {| ix_session_list := session_list;
          ix_csv_row_index := ix_csv_row_index st + 1;
          ix_last_session_time := session_time |}.

Definition get_session_list (csv_rows : list Row) : Result (list nat) :=
  st ← for_each indexer_body indexer_init csv_rows;
  OK (ix_session_list st ++ [ix_csv_row_index st]).

(** ** The output directory

    The files of the output directory with their contents, and the files
    currently open for writing. A file object is known by the name it was
    opened under (the session files have names of their own, see
    [session_file_inj]); what is written counts as file content at once.
    Opening and writing succeed: a full disk or a missing directory is
    outside the model. *)
Record World := {
  files : gmap string string;
  open_files : gset string
}.

(** A computation that reads and changes the output directory and ends
    with a value or an exception; the directory stays as the exception left
    it. *)
Definition IO (A : Type) : Type := World → Result A * World.

#[global] Instance IO_ret : MRet IO := λ A a w, (OK a, w).
#[global] Instance IO_bind : MBind IO := λ A B f m w,
  match m w with
  | (OK a, w') => f a w'
  | (Raise e, w') => (Raise e, w')
  end.

Definition lift {A : Type} (r : Result A) : IO A := λ w, (r, w).

(** [open(name, 'w')]: the file is created or emptied. *)
Definition file_open (name : string) : IO string := λ w,
  (OK name, {| files := <[name := ""]> (files w);
               open_files := {[name]} ∪ open_files w |}).

(** [f.write(data)]: [AttributeError] on [None], [ValueError] on a closed
    file. *)
Definition file_write (f : option string) (data : string) : IO unit := λ w,
  match f with
  | None => (Raise AttributeError, w)
  | Some name =>
      if decide (name ∈ open_files w)
      then (OK (), {| files := alter (λ c, c +:+ data) name (files w);
                      open_files := open_files w |})
      else (Raise ValueError, w)
  end.

(** [f.close()]. *)
Definition file_close (f : option string) : IO unit := λ w,
  match f with
  | None => (Raise AttributeError, w)
  | Some name =>
      (OK (), {| files := files w; open_files := open_files w ∖ {[name]} |})
  end.

(** [os.remove(name)]. *)
Definition os_remove (name : string) : IO unit := λ w,
  match files w !! name with
  | Some _ => (OK (), {| files := delete name (files w); open_files := open_files w |})
  | None => (Raise FileNotFoundError, w)
  end.

(** [for csv_row in csv_reader: body], with the output directory threaded
    through. *)
Fixpoint for_each_io {S A : Type} (body : S → A → IO S) (st : S) (l : list A)
  : IO S :=
  match l with
  | [] => mret st
  | x :: l' => st' ← body st x; for_each_io body st' l'
  end.

(** ** Session writer *)

(** [str(n)] of a natural number. *)
Definition str_nat (n : nat) : string := NilEmpty.string_of_uint (Nat.to_uint n).

Fixpoint zeros (n : nat) : string :=
  match n with
  | O => ""
  | S n' => String "0"%char (zeros n')
  end.

(** [s.zfill(width)] on text without a sign. *)
Definition zfill (width : nat) (s : string) : string :=
  zeros (width - String.length s) +:+ s.

Definition session_id (session_number : nat) : string :=
  "S" +:+ zfill 3 (str_nat session_number).

(** The texts [str.format] puts around the session identifier, and the
    file name it makes of [id] when it returns. When it raises there is no
    file name, and no file: [open_kml_session_file] stops at
    [format_filename]. *)
Definition pattern_texts (cfg : Config) : string * string :=
  match py_format (kml_output_filename cfg) with
  | OK texts => texts
  | Raise _ => ("", "")
  end.

Definition filename_of (cfg : Config) (id : string) : string :=
  (pattern_texts cfg).1 +:+ id +:+ (pattern_texts cfg).2.

(** [cfg.kml_output_filename.format(session_number=id)]. *)
Definition format_filename (cfg : Config) (id : string) : Result string :=
  texts ← py_format (kml_output_filename cfg);
  OK (texts.1 +:+ id +:+ texts.2).

Definition open_kml_session_file (cfg : Config) (session_number : nat)
  : IO (string * string) :=
  let session_number := session_id session_number in
  kml_output_filename ← lift (format_filename cfg session_number);
  let kml_header_string := kml_header session_number in
  kml_file ← file_open kml_output_filename;
  _ ← file_write (Some kml_file) kml_header_string;
  mret (kml_file, kml_output_filename).

Definition close_session_file (kml_file : option string) : IO unit :=
  _ ← file_write kml_file kml_footer;
  file_close kml_file.

Definition delete_session_file (kml_output_filename : string) : IO unit :=
  os_remove kml_output_filename.

(** ** Conversion driver *)

(** The local variables of [convert_userdatalog_csv_to_kml] that its loop
    changes. [kml_file] is [None] or the file object last opened. *)
Record DriverState := {
  session_index : nat;
  sessions_written : nat;
  empty_session_count : nat;
  csv_row_index : nat;
  csv_rows_rejected : nat;
  kml_rows_written_this_session : nat;
  kml_rows_written_total : nat;
  kml_file : option string;
  kml_output_name : string
}.

Definition driver_init : DriverState :=
  {| session_index := 0; sessions_written := 0; empty_session_count := 0;
     csv_row_index := 0; csv_rows_rejected := 0;
     kml_rows_written_this_session := 0; kml_rows_written_total := 0;
     kml_file := None; kml_output_name := "" |}.

(** Lines 201 to 203: a new session file at the start of a session. *)
Definition start_session (cfg : Config) (session_list : list nat)
    (st : DriverState) : IO DriverState :=
  boundary ← lift (index session_list (session_index st));
  if (boundary =? csv_row_index st)%nat then
    opened ← open_kml_session_file cfg (session_index st + 1);
    mret {| session_index := session_index st;
            sessions_written := sessions_written st;
            empty_session_count := empty_session_count st;
            csv_row_index := csv_row_index st;
            csv_rows_rejected := csv_rows_rejected st;
            kml_rows_written_this_session := kml_rows_written_this_session st;
            kml_rows_written_total := kml_rows_written_total st;
            kml_file := Some opened.1;
            kml_output_name := opened.2 |}
  else mret st.

(** Lines 205 to 214: the row is counted as rejected or written out. *)
Definition write_row (cfg : Config) (st : DriverState) (csv_row : Row)
  : IO DriverState :=
  kml_string ← lift (generate_kml_coordinate_string cfg csv_row);
  match kml_string with
  | None =>
      mret {| session_index := session_index st;
              sessions_written := sessions_written st;
              empty_session_count := empty_session_count st;
              csv_row_index := csv_row_index st;
              csv_rows_rejected := csv_rows_rejected st + 1;
              kml_rows_written_this_session := kml_rows_written_this_session st;
              kml_rows_written_total := kml_rows_written_total st;
              kml_file := kml_file st;
              kml_output_name := kml_output_name st |}
  | Some kml_string =>
      _ ← file_write (kml_file st) kml_string;
      mret {| session_index := session_index st;
              sessions_written := sessions_written st;
              empty_session_count := empty_session_count st;
              csv_row_index := csv_row_index st;
              csv_rows_rejected := csv_rows_rejected st;
              kml_rows_written_this_session := kml_rows_written_this_session st + 1;
              kml_rows_written_total := kml_rows_written_total st + 1;
              kml_file := kml_file st;
              kml_output_name := kml_output_name st |}
  end.

(** Lines 217 to 234: the session file is closed, and deleted when empty,
    before the row that starts the next session. *)
Definition end_session (session_list : list nat) (st : DriverState)
  : IO DriverState :=
  boundary ← lift (index session_list (session_index st + 1));
  if (boundary =? csv_row_index st + 1)%nat then
    _ ← close_session_file (kml_file st);
    let sessions_written := (sessions_written st + 1)%nat in
    counted ←
      (if (kml_rows_written_this_session st =? 0)%nat then
         _ ← delete_session_file (kml_output_name st);
         mret ((empty_session_count st + 1)%nat, (sessions_written - 1)%nat)
       else mret (empty_session_count st, sessions_written));
    mret {| session_index := session_index st + 1;
            sessions_written := counted.2;
            empty_session_count := counted.1;
            csv_row_index := csv_row_index st;
            csv_rows_rejected := csv_rows_rejected st;
            kml_rows_written_this_session := 0;
            kml_rows_written_total := kml_rows_written_total st;
            kml_file := kml_file st;
            kml_output_name := kml_output_name st |}
  else mret st.

(** Line 236. *)
Definition next_row (st : DriverState) : DriverState :=
  {| session_index := session_index st;
     sessions_written := sessions_written st;
     empty_session_count := empty_session_count st;
     csv_row_index := csv_row_index st + 1;
     csv_rows_rejected := csv_rows_rejected st;
     kml_rows_written_this_session := kml_rows_written_this_session st;
     kml_rows_written_total := kml_rows_written_total st;
     kml_file := kml_file st;
     kml_output_name := kml_output_name st |}.

Definition driver_body (cfg : Config) (session_list : list nat)
    (st : DriverState) (csv_row : Row) : IO DriverState :=
  st ← start_session cfg session_list st;
  st ← write_row cfg st csv_row;
  st ← end_session session_list st;
  mret (next_row st).

(** What the driver prints at the end, but for the duration. *)
Record Statistics := {
  stat_csv_rows_read : nat;
  stat_csv_rows_rejected : nat;
  stat_csv_row_rejection_pct : float;
  stat_sessions_detected : nat;
  stat_sessions_written : nat;
  stat_session_rejection_pct : float;
  stat_kml_rows_written : nat
}.

(** The driver on the rows of the input file, which both passes read. It
    returns [None] after the message for an empty session index and the
    statistics otherwise. *)
Definition convert_userdatalog_csv_to_kml (cfg : Config) (csv_rows : list Row)
  : IO (option Statistics) :=
  session_list ← lift (get_session_list csv_rows);
  match session_list with
  | [] => mret None
  | _ :: _ =>
      let sessions_detected := (length session_list - 1)%nat in
      st ← for_each_io (driver_body cfg session_list) driver_init csv_rows;
      csv_row_rejection_pct ←
        lift (truediv (float_of_nat (csv_rows_rejected st)) (csv_row_index st));
      session_quotient ←
        lift (truediv (float_of_nat (sessions_written st)) sessions_detected);
      mret (Some {| stat_csv_rows_read := csv_row_index st;
                    stat_csv_rows_rejected := csv_rows_rejected st;
                    stat_csv_row_rejection_pct := csv_row_rejection_pct;
                    stat_sessions_detected := sessions_detected;
                    stat_sessions_written := sessions_written st;
                    stat_session_rejection_pct := (1 - session_quotient)%float;
                    stat_kml_rows_written := kml_rows_written_total st |})
  end.

(** The output directory as [configure_output_dir] leaves it. *)
Definition empty_directory : World := {| files := ∅; open_files := ∅ |}.

(** *** What the indexer is measured against *)

(** The rows the indexer considers: those with a session time. *)
Definition considered (csv_rows : list Row) : list Row :=
  filter (λ r, blank (col_session_time r) = false) csv_rows.

(** The session times of the considered rows, as numbers. *)
Definition row_time (r : Row) : option float :=
  if blank (col_session_time r) then None else col_session_time r ≫= py_float.

Definition session_times (csv_rows : list Row) : list float :=
  omap row_time csv_rows.

(** The sessions of a sequence of times: one starts at the very first time
    and at every time that is below the time before it. *)
Fixpoint time_breaks (prev : float) (ts : list float) : nat :=
  match ts with
  | [] => 0
  | t :: ts' => (if (t <? prev)%float then 1 else 0) + time_breaks t ts'
  end.

Definition session_count (ts : list float) : nat :=
  match ts with
  | [] => 0
  | t :: ts' => 1 + time_breaks t ts'
  end.

Definition strictly_increasing (l : list nat) : Prop :=
  ∀ i j x y, l !! i = Some x → l !! j = Some y → (i < j)%nat → (x < y)%nat.

(** *** What the driver is measured against *)

(** The validator's verdict on a row. *)
Definition accepted (cfg : Config) (r : Row) : bool :=
  match generate_kml_coordinate_string cfg r with
  | OK (Some _) => true
  | _ => false
  end.

Definition rejected (cfg : Config) (r : Row) : bool :=
  match generate_kml_coordinate_string cfg r with
  | OK None => true
  | _ => false
  end.

Definition records_in (cfg : Config) (rows : list Row) : nat :=
  length (filter (λ r, accepted cfg r = true) rows).

(** Session [j], counted from 0: the rows the driver reads from boundary
    [j] up to boundary [j + 1], and the file it writes them to. *)
Definition session_rows (session_list : list nat) (csv_rows : list Row) (j : nat)
  : list Row :=
  match session_list !! j, session_list !! (j + 1)%nat with
  | Some a, Some b => take (b - a) (drop a csv_rows)
  | _, _ => []
  end.

Definition session_file (cfg : Config) (j : nat) : string :=
  filename_of cfg (session_id (j + 1)).

(** The value of [csv_row_index] with which each pass reaches the row at
    position [p] of the file. *)
Definition indexer_row_index (csv_rows : list Row) (p : nat) : Result nat :=
  st ← for_each indexer_body indexer_init (take p csv_rows);
  OK (ix_csv_row_index st).

Definition driver_row_index (cfg : Config) (session_list : list nat)
    (csv_rows : list Row) (p : nat) : Result nat :=
  st ← (for_each_io (driver_body cfg session_list) driver_init (take p csv_rows)
          empty_directory).1;
  OK (csv_row_index st).

(** The sessions among the first [k] that hold a record. *)
Definition sessions_with_records (cfg : Config) (session_list : list nat)
    (csv_rows : list Row) (k : nat) : nat :=
  length (filter (λ j, (0 < records_in cfg (session_rows session_list csv_rows j))%nat)
            (seq 0 k)).

(** *** Where sessions start *)

(** Row [x] of a sequence of times starts a session when it is the first
    row or its time is below the time of the row before. *)
Definition starts_session (ts : list float) (x : nat) : Prop :=
  x = 0%nat
  ∨ ∃ a b, ts !! (x - 1)%nat = Some a ∧ ts !! x = Some b ∧ (b <? a)%float = true.

(** Whether the time at position [p] is below the time before it, [prev]
    being the time before the sequence. *)
Fixpoint break_at (prev : float) (ts : list float) (p : nat) : bool :=
  match ts with
  | [] => false
  | t :: ts' =>
      match p with
      | O => (t <? prev)%float
      | S p' => break_at t ts' p'
      end
  end.

(** *** The documents of the sessions *)

(** What the driver writes for a row: the record of an accepted row and
    nothing for a rejected one. *)
Definition record_of (cfg : Config) (r : Row) : string :=
  match generate_kml_coordinate_string cfg r with
  | OK (Some record) => record
  | _ => ""
  end.

Fixpoint records_text (cfg : Config) (rows : list Row) : string :=
  match rows with
  | [] => ""
  | r :: rows' => record_of cfg r +:+ records_text cfg rows'
  end.

(** The document of session [j]: the header for its identifier, the
    records of its rows and the footer. *)
Definition session_document (cfg : Config) (session_list : list nat)
    (csv_rows : list Row) (j : nat) : string :=
  kml_header (session_id (j + 1))
    +:+ records_text cfg (session_rows session_list csv_rows j) +:+ kml_footer.

(** *** The invariants of the two loops *)

(** What holds of the indexer's variables between two rows. *)
Definition indexer_inv (st : IndexerState) : Prop :=
  strictly_increasing (ix_session_list st)
  ∧ Forall (λ y, (y < ix_csv_row_index st)%nat) (ix_session_list st)
  ∧ (ix_session_list st ++ [ix_csv_row_index st]) !! 0%nat = Some 0%nat.

Definition bad_session_time (csv_rows : list Row) : Prop :=
  ∃ r s, r ∈ csv_rows ∧ col_session_time r = Some s ∧ s ≠ "" ∧ py_float s = None.

Section DriverInvariant.
Variables (cfg : Config) (session_list : list nat) (csv_rows : list Row) (m : nat).

(** The boundary at which session [j] begins. *)
Definition boundary (j : nat) : nat := default 0%nat (session_list !! j).

(** What holds of the driver's variables and the output directory while
    row [i] is being converted. [opened] tells whether the file of the
    current session is open; [n] is the number of rows whose records have
    been written. *)
Record driver_inv (opened : bool) (i n : nat) (st : DriverState) (w : World)
  : Prop := {
  inv_row : csv_row_index st = i;
  inv_session : is_Some (session_list !! session_index st);
  inv_start : (boundary (session_index st) ≤ i)%nat;
  inv_next : ∀ b, session_list !! (session_index st + 1)%nat = Some b → (i < b)%nat;
  inv_records :
    kml_rows_written_this_session st =
      records_in cfg (take (n - boundary (session_index st))
                        (drop (boundary (session_index st)) csv_rows));
  inv_written :
    sessions_written st =
      sessions_with_records cfg session_list csv_rows (session_index st);
  inv_closed : ∀ j, (j < session_index st)%nat →
    is_Some (files w !! session_file cfg j)
    ↔ (0 < records_in cfg (session_rows session_list csv_rows j))%nat;
  inv_later : ∀ j, (session_index st < j)%nat → files w !! session_file cfg j = None;
  inv_current :
    if opened
    then is_Some (files w !! session_file cfg (session_index st))
         ∧ open_files w = {[session_file cfg (session_index st)]}
         ∧ kml_file st = Some (session_file cfg (session_index st))
         ∧ kml_output_name st = session_file cfg (session_index st)
    else files w !! session_file cfg (session_index st) = None
         ∧ open_files w = ∅
}.

(** Between two rows the file of the current session is open exactly when
    the session has begun. *)
Definition between_rows (i : nat) (st : DriverState) (w : World) : Prop :=
  (i ≤ m)%nat
  ∧ driver_inv (bool_decide (boundary (session_index st) < i)%nat) i i st w.

(** What holds of the output directory when the loop raises: the file of
    the session being converted is open, and no session whose rows were all
    rejected has a file. *)
Definition aborted (w : World) : Prop :=
  (∃ k, open_files w = {[session_file cfg k]})
  ∧ ∀ j, (j + 1 < length session_list)%nat →
      forallb (rejected cfg) (session_rows session_list csv_rows j) = true →
      files w !! session_file cfg j = None.

(** What holds of the contents of the output directory while a row is
    being converted: the files of the sessions before the current one are
    their documents, the file of the current session, when [opened], holds
    the header and the records of the first [n] rows, and there is no
    other file. *)
Record document_inv (opened : bool) (n : nat) (st : DriverState) (w : World)
  : Prop := {
  doc_closed : ∀ j c, (j < session_index st)%nat →
    files w !! session_file cfg j = Some c →
    c = session_document cfg session_list csv_rows j;
  doc_names : ∀ name, is_Some (files w !! name) →
    ∃ j, (j ≤ session_index st)%nat ∧ name = session_file cfg j;
  doc_current : opened = true →
    files w !! session_file cfg (session_index st) =
      Some (kml_header (session_id (session_index st + 1))
              +:+ records_text cfg
                    (take (n - boundary (session_index st))
                       (drop (boundary (session_index st)) csv_rows)))
}.

(** The invariant of the loop with the contents of the files. *)
Definition documents_between_rows (i : nat) (st : DriverState) (w : World) : Prop :=
  between_rows i st w
  ∧ document_inv (bool_decide (boundary (session_index st) < i)%nat) i st w.

End DriverInvariant.

End Converter.

(** ** The configuration built by [main]

    [joined] is [os.path.join(output_directory, csv_input_filename)]. *)
Definition main_config (joined : string) : Config :=
  {| kml_output_filename := joined +:+ "_{session_number}.kml";
     min_fix_quality := 1;
     min_satellites := 4 |}.

(** ** An interpretation of the built-ins

    Plain decimal integer literals, the way Python reads them: [int] and
    [float] of an optional minus sign and digits. It serves to run the
    model on concrete rows. *)

Definition decimal_int (s : string) : option Z :=
  Z.of_int <$> NilZero.int_of_string s.

Definition decimal_float (s : string) : option float :=
  float_of_Z <$> decimal_int s.

Definition str_Z (z : Z) : string :=
  NilZero.string_of_int (Z.to_int z).

(** A float written as its sign, integer significand and binary exponent. *)
Definition str_binary (f : float) : string :=
  match Prim2SF f with
  | S754_zero s => if s then "-0.0" else "0.0"
  | S754_infinity s => if s then "-inf" else "inf"
  | S754_nan => "nan"
  | S754_finite s m e =>
      (if s then "-" else "") +:+ str_Z (Zpos m) +:+ "p" +:+ str_Z e
  end.

(** Patterns with one plain field [{session_number}]: doubled braces are
    single ones, and any other brace raises [ValueError], as a lone brace
    does in Python. A pattern without the field, with the field twice or
    with another field is none the model has; it is refused here. *)
Definition brace (c : ascii) : bool :=
  bool_decide (c = "{"%char) || bool_decide (c = "}"%char).

Fixpoint drop_string (n : nat) (s : string) : string :=
  match n, s with
  | S n', String _ s' => drop_string n' s'
  | _, _ => s
  end.

Definition prepend (c : ascii) (r : Result string) : Result string :=
  match r with
  | OK s => OK (String c s)
  | Raise e => Raise e
  end.

Fixpoint format_literal (s : string) : Result string :=
  match s with
  | "" => OK ""
  | String c s' =>
      if brace c then
        match s' with
        | String c' s'' =>
            if bool_decide (c' = c) then prepend c (format_literal s'')
            else Raise ValueError
        | "" => Raise ValueError
        end
      else prepend c (format_literal s')
  end.

Definition prepend_before (c : ascii) (r : Result (string * string))
  : Result (string * string) :=
  match r with
  | OK (before, after) => OK (String c before, after)
  | Raise e => Raise e
  end.

Fixpoint plain_format (s : string) : Result (string * string) :=
  match s with
  | "" => Raise ValueError
  | String c s' =>
      if String.prefix "{session_number}" s then
        match format_literal (drop_string 16 s) with
        | OK after => OK ("", after)
        | Raise e => Raise e
        end
      else if brace c then
        match s' with
        | String c' s'' =>
            if bool_decide (c' = c) then prepend_before c (plain_format s'')
            else Raise ValueError
        | "" => Raise ValueError
        end
      else prepend_before c (plain_format s')
  end.

Definition decimal_builtins : Builtins :=
  {| py_int := decimal_int;
     py_float := decimal_float;
     py_str_float := str_binary;
     py_format := plain_format;
     kml_header := λ id, "<name>" +:+ id +:+ "</name><coordinates>";
     kml_footer := "</coordinates>" |}.

(** ** Concrete logs

    Rows of a log, the configuration of [main] for the input file
    [log.csv], and the driver run on them with the built-ins read as
    decimal literals. *)

Definition log_row (session_time fix_quality num_sats lat lon alt : string) : Row :=
  {| col_session_time := Some session_time;
     col_fix_quality := Some fix_quality;
     col_num_sats := Some num_sats;
     col_date_and_time := Some "2019-05-04 17:20:31";
     col_lat := Some lat;
     col_lon := Some lon;
     col_alt := Some alt |}.

Definition log_config : Config := main_config "output/log.csv".

Definition run_log (csv_rows : list Row) : Result (option Statistics) * World :=
  @convert_userdatalog_csv_to_kml decimal_builtins log_config csv_rows
    empty_directory.

(** Three sessions: two accepted rows, two rejected rows, one accepted
    row. *)
Definition three_sessions : list Row :=
  [log_row "1" "1" "7" "45.5" "-122.1" "100";
   log_row "2" "1" "7" "45.6" "-122.2" "200";
   log_row "0" "0" "7" "45.7" "-122.3" "300";
   log_row "1" "1" "3" "45.8" "-122.4" "400";
   log_row "0" "2" "9" "45.9" "-122.5" "500"].

(** Eight rows in three sessions, three rows of steady time, and a log
    whose first row has no session time. *)
Definition eight_rows : list Row :=
  (λ t, log_row t "1" "7" "45.5" "-122.1" "100")
    <$> ["1"; "2"; "3"; "0"; "1"; "5"; "2"; "9"].

Definition steady_rows : list Row :=
  (λ t, log_row t "1" "7" "45.5" "-122.1" "100") <$> ["1"; "2"; "2"].

Definition blank_first_rows : list Row :=
  (λ t, log_row t "1" "7" "45.5" "-122.1" "100") <$> [""; "5"; "1"].

(** * Properties *)

Section Properties.
Context `{!Builtins}.

(** ** Session indexer *)

Lemma strictly_increasing_nil : strictly_increasing [].
Proof. intros i j x y Hi. by rewrite lookup_nil in Hi. Qed.

Lemma strictly_increasing_snoc (l : list nat) (b : nat) :
  strictly_increasing l → Forall (λ y, (y < b)%nat) l →
  strictly_increasing (l ++ [b]).
Proof.
  intros Hl Hb i j x y Hi Hj Hij.
  assert (j < length (l ++ [b]))%nat as Hjlen by (eapply lookup_lt_Some; eauto).
  rewrite length_app in Hjlen. simpl in Hjlen.
  rewrite lookup_app_l in Hi by lia.
  destruct (decide (j < length l)%nat) as [Hjl|Hjl].
  - rewrite lookup_app_l in Hj by lia. eauto.
  - replace j with (length l) in Hj by lia.
    rewrite list_lookup_middle in Hj by done. injection Hj as <-.
    rewrite Forall_lookup in Hb. eauto.
Qed.

Lemma blank_false (x : option string) :
  blank x = false → ∃ s, x = Some s ∧ s ≠ "".
Proof.
  destruct x as [s|]; simpl; [|done].
  intros Hs. exists s. split; [done|]. by apply bool_decide_eq_false in Hs.
Qed.

Lemma for_each_cons {S A : Type} (body : S → A → Result S) st x l :
  for_each body st (x :: l) = body st x ≫= λ st', for_each body st' l.
Proof. reflexivity. Qed.

Lemma indexer_body_blank st r :
  blank (col_session_time r) = true → indexer_body st r = OK st.
Proof. intros Hb. unfold indexer_body. by rewrite Hb. Qed.

Lemma indexer_body_time st r :
  blank (col_session_time r) = false →
  indexer_body st r =
    t ← float_of (col_session_time r);
    OK {| ix_session_list :=
            if (ix_csv_row_index st =? 0)%nat || (t <? ix_last_session_time st)%float
            then ix_session_list st ++ [ix_csv_row_index st]
            else ix_session_list st;
          ix_csv_row_index := ix_csv_row_index st + 1;
          ix_last_session_time := t |}.
Proof. intros Hb. unfold indexer_body. by rewrite Hb. Qed.

Lemma considered_cons r rows :
  considered (r :: rows) =
    if blank (col_session_time r) then considered rows else r :: considered rows.
Proof.
  unfold considered. rewrite filter_cons.
  destruct (blank (col_session_time r)); by case_decide.
Qed.

Lemma session_times_cons r rows :
  session_times (r :: rows) =
    match row_time r with
    | Some t => t :: session_times rows
    | None => session_times rows
    end.
Proof. reflexivity. Qed.

Lemma bad_session_time_cons r rows :
  bad_session_time rows → bad_session_time (r :: rows).
Proof.
  intros (r' & s' & ? & ?). exists r', s'.
  split; [by apply list_elem_of_further|done].
Qed.

Lemma indexer_loop (csv_rows : list Row) : ∀ st,
  indexer_inv st →
  match for_each indexer_body st csv_rows with
  | OK st' =>
      indexer_inv st'
      ∧ ix_csv_row_index st' = (ix_csv_row_index st + length (considered csv_rows))%nat
      ∧ length (session_times csv_rows) = length (considered csv_rows)
      ∧ length (ix_session_list st') =
          (length (ix_session_list st)
           + (if (ix_csv_row_index st =? 0)%nat
              then session_count (session_times csv_rows)
              else time_breaks (ix_last_session_time st) (session_times csv_rows)))%nat
  | Raise e => e = ValueError ∧ bad_session_time csv_rows
  end.
Proof.
  induction csv_rows as [|r rows IH]; intros st Hinv.
  - simpl. rewrite !Nat.add_0_r. by destruct (_ =? _)%nat.
  - rewrite for_each_cons, considered_cons, session_times_cons.
    unfold row_time.
    destruct (blank (col_session_time r)) eqn:Hb.
    + rewrite indexer_body_blank by done. simpl.
      specialize (IH st Hinv).
      destruct (for_each indexer_body st rows); [done|].
      destruct IH as [-> Hbad]. eauto using bad_session_time_cons.
    + rewrite indexer_body_time by done.
      destruct (blank_false _ Hb) as (s & Hs & Hne). rewrite Hs. simpl.
      destruct (py_float s) as [t|] eqn:Ht; simpl.
      2:{ split; [done|]. exists r, s. split_and!; try done. apply list_elem_of_here. }
      set (st1 := {| ix_session_list := _ |}).
      assert (indexer_inv st1) as Hinv1.
      { destruct Hinv as (Hinc & Hlt & Hhead). unfold indexer_inv, st1.
        cbn [ix_session_list ix_csv_row_index].
        destruct (_ || _) eqn:Hnew; split_and!.
        - by apply strictly_increasing_snoc.
        - apply Forall_app. split; [|by apply Forall_singleton; lia].
          eapply Forall_impl; [exact Hlt|]. simpl. lia.
        - rewrite lookup_app_l by (rewrite length_app; simpl; lia). done.
        - done.
        - eapply Forall_impl; [exact Hlt|]. simpl. lia.
        - apply orb_false_elim in Hnew as [Hidx0%Nat.eqb_neq _].
          destruct (ix_session_list st); simpl in *; [|done].
          by injection Hhead. }
      specialize (IH st1 Hinv1).
      destruct (for_each indexer_body st1 rows) as [st'|e]; [|].
      2:{ destruct IH as [-> Hbad]. eauto using bad_session_time_cons. }
      destruct IH as (Hinv' & Hidx & Hlen & Hcnt).
      split_and!; [done|..].
      * rewrite Hidx. unfold st1. simpl. lia.
      * simpl. lia.
      * rewrite Hcnt. unfold st1. simpl.
        replace (ix_csv_row_index st + 1 =? 0)%nat with false
          by (symmetry; apply Nat.eqb_neq; lia).
        destruct (ix_csv_row_index st =? 0)%nat; simpl.
        -- rewrite length_app. simpl. lia.
        -- destruct (t <? ix_last_session_time st)%float; simpl;
             rewrite ?length_app; simpl; lia.
Qed.

Lemma indexer_inv_init : indexer_inv indexer_init.
Proof.
  split_and!; [apply strictly_increasing_nil|apply Forall_nil_2|done].
Qed.

(** The shape of the session list the driver relies on. *)
Lemma get_session_list_shape (csv_rows : list Row) (session_list : list nat) :
  get_session_list csv_rows = OK session_list →
  session_list !! 0%nat = Some 0%nat
  ∧ strictly_increasing session_list
  ∧ last session_list = Some (length (considered csv_rows))
  ∧ (length (considered csv_rows) ≤ length csv_rows)%nat.
Proof.
  unfold get_session_list.
  pose proof (indexer_loop csv_rows indexer_init indexer_inv_init) as Hloop.
  destruct (for_each indexer_body indexer_init csv_rows) as [st|e]; simpl; [|done].
  destruct Hloop as ((Hinc & Hlt & Hhead) & Hidx & _). simpl in Hidx.
  intros [= <-]. split_and!.
  - done.
  - by apply strictly_increasing_snoc.
  - by rewrite last_snoc, Hidx.
  - apply length_filter.
Qed.

(** C1. The list [get_session_list] returns is strictly increasing, ends
    with the number of rows considered (those with a session time), has at
    least one element, and has one element more than there are sessions
    among the times of the considered rows. The only other outcome is a
    [ValueError], raised on a session time that is not a number. *)
Theorem session_list_invariants (csv_rows : list Row) :
  match get_session_list csv_rows with
  | OK session_list =>
      strictly_increasing session_list
      ∧ last session_list = Some (length (considered csv_rows))
      ∧ (1 ≤ length session_list)%nat
      ∧ length (session_times csv_rows) = length (considered csv_rows)
      ∧ (length session_list - 1)%nat = session_count (session_times csv_rows)
  | Raise e => e = ValueError ∧ bad_session_time csv_rows
  end.
Proof.
  unfold get_session_list.
  pose proof (indexer_loop csv_rows indexer_init indexer_inv_init) as Hloop.
  destruct (for_each indexer_body indexer_init csv_rows) as [st|e]; simpl; [|done].
  destruct Hloop as ((Hinc & Hlt & _) & Hidx & Hlen & Hcnt). simpl in Hidx, Hcnt.
  split_and!.
  - by apply strictly_increasing_snoc.
  - by rewrite last_snoc, Hidx.
  - rewrite length_app. simpl. lia.
  - done.
  - rewrite length_app, Hcnt. simpl. lia.
Qed.

(** The indexer returns a list whenever every session time present is a
    number. *)
Lemma get_session_list_returns (csv_rows : list Row) :
  ¬ bad_session_time csv_rows →
  ∃ session_list, get_session_list csv_rows = OK session_list.
Proof.
  intros Hgood. unfold get_session_list.
  pose proof (indexer_loop csv_rows indexer_init indexer_inv_init) as Hloop.
  destruct (for_each indexer_body indexer_init csv_rows) as [st|e]; simpl.
  - eauto.
  - by destruct Hloop as [_ Hbad].
Qed.

Lemma blank_text (s : string) : s ≠ "" → blank (Some s) = false.
Proof. intros Hs. simpl. by apply bool_decide_eq_false. Qed.

Lemma indexer_body_parsed st r s t :
  col_session_time r = Some s → s ≠ "" → py_float s = Some t →
  indexer_body st r =
    OK {| ix_session_list :=
            if (ix_csv_row_index st =? 0)%nat || (t <? ix_last_session_time st)%float
            then ix_session_list st ++ [ix_csv_row_index st]
            else ix_session_list st;
          ix_csv_row_index := ix_csv_row_index st + 1;
          ix_last_session_time := t |}.
Proof.
  intros Hr Hs Ht. rewrite indexer_body_time by (rewrite Hr; by apply blank_text).
  rewrite Hr. simpl. by rewrite Ht.
Qed.

(** C3. Eight rows whose session times read 1, 2, 3, 0, 1, 5, 2, 9 give
    the boundaries 0, 3, 6 and the sentinel 8. *)
Theorem monotonic_break_example (csv_rows : list Row) (texts : list string) :
  col_session_time <$> csv_rows = Some <$> texts →
  Forall2 (λ s t, s ≠ "" ∧ py_float s = Some t) texts [1; 2; 3; 0; 1; 5; 2; 9]%float →
  get_session_list csv_rows = OK [0; 3; 6; 8]%nat.
Proof.
  intros Hrows Htexts.
  repeat match goal with
  | H : Forall2 _ _ (_ :: _) |- _ =>
      apply Forall2_cons_inv_r in H as (? & ? & [? ?] & H & ->)
  end.
  apply Forall2_nil_inv_r in Htexts as ->.
  do 8 (destruct csv_rows as [|? csv_rows]; [done|]).
  destruct csv_rows; [|done].
  simpl in Hrows. simplify_eq.
  unfold get_session_list, indexer_init.
  do 8 (rewrite for_each_cons; erewrite indexer_body_parsed by done;
        cbn [mbind Result_bind]).
  reflexivity.
Qed.

(** ** Row validator *)

Lemma int_of_parsed s n : py_int s = Some n → int_of (Some s) = OK n.
Proof. intros Hn. simpl. by rewrite Hn. Qed.

Lemma int_of_unparsed s : py_int s = None → int_of (Some s) = Raise ValueError.
Proof. intros Hn. simpl. by rewrite Hn. Qed.

(** The validator, one check at a time. *)
Lemma validator_blank_required cfg row :
  blank (col_fix_quality row) || blank (col_num_sats row)
    || blank (col_date_and_time row) = true →
  generate_kml_coordinate_string cfg row = OK None.
Proof. intros Hb. unfold generate_kml_coordinate_string. by rewrite Hb. Qed.

Lemma validator_required_present cfg row :
  blank (col_fix_quality row) || blank (col_num_sats row)
    || blank (col_date_and_time row) = false →
  generate_kml_coordinate_string cfg row =
    q ← int_of (col_fix_quality row);
    if q <? min_fix_quality cfg then OK None
    else
      n ← int_of (col_num_sats row);
      if n <? min_satellites cfg then OK None
      else if blank (col_lat row) || blank (col_lon row) || blank (col_alt row)
      then OK None
      else
        a ← float_of (col_alt row);
        OK (Some (kml_string (text (col_lon row)) (text (col_lat row))
                    (py_str_float (a * METERS_PER_FOOT)%float))).
Proof. intros Hb. unfold generate_kml_coordinate_string. by rewrite Hb. Qed.

(** C5. An accepted row yields its longitude text, a comma, its latitude
    text, a comma, the text of its altitude times 0.3048, and CRLF; one
    hundred feet are 30.48 metres. *)
#[warnings="-inexact-float"]
Theorem accepted_record (cfg : Config) (csv_row : Row) (record : string) :
  generate_kml_coordinate_string cfg csv_row = OK (Some record) →
  ∃ lon lat alt feet,
    col_lon csv_row = Some lon ∧ col_lat csv_row = Some lat
    ∧ col_alt csv_row = Some alt ∧ py_float alt = Some feet
    ∧ record =
        lon +:+ "," +:+ lat +:+ ","
          +:+ py_str_float (feet * METERS_PER_FOOT)%float +:+ CRLF
    ∧ (feet = 100%float → (feet * METERS_PER_FOOT)%float = 30.48%float).
Proof.
  intros Hgen.
  destruct (blank (col_fix_quality csv_row) || blank (col_num_sats csv_row)
            || blank (col_date_and_time csv_row)) eqn:Hreq.
  { by rewrite validator_blank_required in Hgen. }
  rewrite validator_required_present in Hgen by done.
  destruct (int_of (col_fix_quality csv_row)) as [q|]; simpl in Hgen; [|done].
  destruct (q <? min_fix_quality cfg); [done|].
  destruct (int_of (col_num_sats csv_row)) as [n|]; simpl in Hgen; [|done].
  destruct (n <? min_satellites cfg); [done|].
  destruct (blank (col_lat csv_row) || blank (col_lon csv_row)
            || blank (col_alt csv_row)) eqn:Hpos; [done|].
  apply orb_false_elim in Hpos as [Hpos Halt].
  apply orb_false_elim in Hpos as [Hlat Hlon].
  destruct (blank_false _ Hlat) as (lat & Elat & _).
  destruct (blank_false _ Hlon) as (lon & Elon & _).
  destruct (blank_false _ Halt) as (alt & Ealt & _).
  rewrite Elat, Elon, Ealt in Hgen. simpl in Hgen.
  destruct (py_float alt) as [feet|] eqn:Hfeet; simpl in Hgen; [|done].
  exists lon, lat, alt, feet. split_and!; try done.
  - by injection Hgen as <-.
  - intros ->. vm_compute. reflexivity.
Qed.

(** C6, as the code has it. With the thresholds of [main], a row whose fix
    quality reads as an integer below 1 is rejected whatever its other
    fields; a row whose satellite count reads as an integer below 4 is
    rejected when its fix quality or its timestamp is blank or its fix
    quality reads as an integer, and raises [ValueError] when its fix
    quality is text that is no integer (the fix quality is read first). *)
Theorem default_thresholds (joined : string) (csv_row : Row) :
  (∀ s q, col_fix_quality csv_row = Some s → py_int s = Some q → q < 1 →
     generate_kml_coordinate_string (main_config joined) csv_row = OK None)
  ∧ (∀ s n, col_num_sats csv_row = Some s → py_int s = Some n → n < 4 →
       blank (col_fix_quality csv_row) || blank (col_date_and_time csv_row) = true
       ∨ (∃ s' q, col_fix_quality csv_row = Some s' ∧ py_int s' = Some q) →
       generate_kml_coordinate_string (main_config joined) csv_row = OK None)
  ∧ (∀ s n s', col_num_sats csv_row = Some s → py_int s = Some n → n < 4 →
       s ≠ "" → blank (col_date_and_time csv_row) = false →
       col_fix_quality csv_row = Some s' → s' ≠ "" → py_int s' = None →
       generate_kml_coordinate_string (main_config joined) csv_row = Raise ValueError).
Proof.
  split_and!.
  - intros s q Hs Hq Hlow.
    destruct (blank (col_fix_quality csv_row) || blank (col_num_sats csv_row)
              || blank (col_date_and_time csv_row)) eqn:Hreq.
    { by apply validator_blank_required. }
    rewrite validator_required_present by done.
    rewrite Hs, (int_of_parsed _ _ Hq). simpl.
    by rewrite (proj2 (Z.ltb_lt q 1) Hlow).
  - intros s n Hs Hn Hlow Hfix.
    destruct (blank (col_fix_quality csv_row) || blank (col_num_sats csv_row)
              || blank (col_date_and_time csv_row)) eqn:Hreq.
    { by apply validator_blank_required. }
    rewrite validator_required_present by done.
    destruct Hfix as [Hb|(s' & q & Hs' & Hq)].
    { apply orb_false_elim in Hreq as [Hreq Hd].
      apply orb_false_elim in Hreq as [Hf _].
      rewrite Hf, Hd in Hb. done. }
    rewrite Hs', (int_of_parsed _ _ Hq). simpl.
    destruct (q <? 1); [done|].
    rewrite Hs, (int_of_parsed _ _ Hn). simpl.
    by rewrite (proj2 (Z.ltb_lt n 4) Hlow).
  - intros s n s' Hs Hn Hlow Hne Hdate Hs' Hne' Hq.
    rewrite validator_required_present.
    + by rewrite Hs', (int_of_unparsed _ Hq).
    + rewrite Hs, Hs', Hdate, !blank_text by done. done.
Qed.

(** C10. In a row past the blank and threshold checks, whatever text its
    latitude and longitude hold (other than none) goes into the record as it
    is: the row is accepted when its altitude is a number, and no
    conversion is applied to latitude or longitude. *)
Theorem latitude_longitude_verbatim (cfg : Config) (csv_row : Row)
    (fq ns lat lon alt : string) (q n : Z) :
  col_fix_quality csv_row = Some fq → fq ≠ "" → py_int fq = Some q →
  col_num_sats csv_row = Some ns → ns ≠ "" → py_int ns = Some n →
  blank (col_date_and_time csv_row) = false →
  min_fix_quality cfg ≤ q → min_satellites cfg ≤ n →
  col_alt csv_row = Some alt → alt ≠ "" →
  col_lat csv_row = Some lat → lat ≠ "" →
  col_lon csv_row = Some lon → lon ≠ "" →
  generate_kml_coordinate_string cfg csv_row =
    match py_float alt with
    | Some feet =>
        OK (Some (lon +:+ "," +:+ lat +:+ ","
                    +:+ py_str_float (feet * METERS_PER_FOOT)%float +:+ CRLF))
    | None => Raise ValueError
    end.
Proof.
  intros Hfq Hfq_ne Hq Hns Hns_ne Hn Hdate Hqmin Hnmin Halt Halt_ne
    Hlat Hlat_ne Hlon Hlon_ne.
  rewrite validator_required_present.
  2:{ rewrite Hfq, Hns, Hdate, !blank_text by done. done. }
  rewrite Hfq, (int_of_parsed _ _ Hq). simpl.
  rewrite (proj2 (Z.ltb_ge q _) Hqmin).
  rewrite Hns, (int_of_parsed _ _ Hn). simpl.
  rewrite (proj2 (Z.ltb_ge n _) Hnmin).
  rewrite Hlat, Hlon, Halt, !blank_text by done. simpl.
  by destruct (py_float alt).
Qed.

Local Open Scope nat_scope.

(** ** Session writer *)

Lemma string_app_length (s1 s2 : string) :
  String.length (s1 +:+ s2) = (String.length s1 + String.length s2)%nat.
Proof. induction s1 as [|c s1 IH]; simpl; [done|by rewrite IH]. Qed.

Lemma string_app_inv_tail (s1 s2 t : string) : s1 +:+ t = s2 +:+ t → s1 = s2.
Proof.
  revert s2. induction s1 as [|c s1 IH]; intros [|d s2] Heq; simpl in Heq.
  - done.
  - apply (f_equal String.length) in Heq.
    simpl in Heq. rewrite !string_app_length in Heq. simpl in Heq. lia.
  - apply (f_equal String.length) in Heq.
    simpl in Heq. rewrite !string_app_length in Heq. simpl in Heq. lia.
  - injection Heq as -> Heq. f_equal. by apply IH.
Qed.

Lemma uint_of_zeros (k : nat) (s : string) :
  NilEmpty.uint_of_string (zeros k +:+ s)
  = Nat.iter k Decimal.D0 <$> NilEmpty.uint_of_string s.
Proof.
  induction k as [|k IH].
  - change (zeros 0 +:+ s) with s. by destruct (NilEmpty.uint_of_string s).
  - change (zeros (S k) +:+ s) with (String "0"%char (zeros k +:+ s)).
    change (NilEmpty.uint_of_string (String "0"%char (zeros k +:+ s)))
      with (uint_of_char "0"%char (NilEmpty.uint_of_string (zeros k +:+ s))).
    rewrite IH. by destruct (NilEmpty.uint_of_string s).
Qed.

Lemma of_uint_zeros (k : nat) (d : Decimal.uint) :
  Nat.of_uint (Nat.iter k Decimal.D0 d) = Nat.of_uint d.
Proof. induction k as [|k IH]; simpl; [done|exact IH]. Qed.

Lemma read_zfill (width n : nat) :
  Nat.of_uint <$> NilEmpty.uint_of_string (zfill width (str_nat n)) = Some n.
Proof.
  unfold zfill, str_nat. rewrite uint_of_zeros, NilEmpty.usu. simpl.
  by rewrite of_uint_zeros, DecimalNat.Unsigned.of_to.
Qed.

(** Sessions with different numbers are written to different files. *)
Lemma session_file_inj (cfg : Config) (a b : nat) :
  filename_of cfg (session_id a) = filename_of cfg (session_id b) → a = b.
Proof.
  unfold filename_of, session_id. intros Heq.
  apply (inj _) in Heq. apply string_app_inv_tail in Heq.
  apply (inj _) in Heq.
  pose proof (read_zfill 3 a) as Ha. rewrite Heq, read_zfill in Ha.
  by injection Ha.
Qed.

(** ** Conversion driver *)

Lemma for_each_io_cons {S A : Type} (body : S → A → IO S) st x l w :
  for_each_io body st (x :: l) w =
    match body st x w with
    | (OK st', w') => for_each_io body st' l w'
    | (Raise e, w') => (Raise e, w')
    end.
Proof. reflexivity. Qed.

(** The loop rule: what holds before the first row and is kept by the loop
    body holds after the last row; what holds when the body raises holds
    when the loop does. *)
Lemma for_each_io_invariant {S A : Type} (body : S → A → IO S) (l : list A)
    (P : nat → S → World → Prop) (Q : exn → World → Prop) :
  (∀ i st w x, l !! i = Some x → P i st w →
     match body st x w with
     | (OK st', w') => P (i + 1)%nat st' w'
     | (Raise e, w') => Q e w'
     end) →
  ∀ st w, P 0%nat st w →
    match for_each_io body st l w with
    | (OK st', w') => P (length l) st' w'
    | (Raise e, w') => Q e w'
    end.
Proof.
  intros Hbody.
  assert (∀ rest done st w, l = done ++ rest → P (length done) st w →
    match for_each_io body st rest w with
    | (OK st', w') => P (length l) st' w'
    | (Raise e, w') => Q e w'
    end) as Hgen.
  { induction rest as [|x rest IH]; intros done st w Hl HP.
    - simpl. unfold mret, IO_ret. subst l. by rewrite app_nil_r.
    - rewrite for_each_io_cons.
      specialize (Hbody (length done) st w x).
      rewrite Hl, list_lookup_middle in Hbody by done.
      specialize (Hbody eq_refl HP).
      destruct (body st x w) as [[st'|e] w']; [|done].
      apply (IH (done ++ [x])).
      + by rewrite <- app_assoc.
      + by rewrite length_app. }
  intros st w HP. by apply (Hgen l [] st w).
Qed.

Lemma records_in_snoc cfg rows r :
  records_in cfg (rows ++ [r]) =
    (records_in cfg rows + (if accepted cfg r then 1 else 0))%nat.
Proof.
  unfold records_in. rewrite filter_app, length_app, filter_cons, filter_nil.
  destruct (accepted cfg r); case_decide; simpl; done.
Qed.

Lemma records_in_rejected cfg rows :
  forallb (rejected cfg) rows = true → records_in cfg rows = 0%nat.
Proof.
  unfold records_in. induction rows as [|r rows IH]; simpl; [done|].
  intros [Hr Hrows]%andb_prop. rewrite filter_cons.
  assert (accepted cfg r = false) as ->.
  { unfold rejected, accepted in *.
    by destruct (generate_kml_coordinate_string cfg r) as [[]|]. }
  case_decide; [done|]. by apply IH.
Qed.

Lemma sessions_with_records_S cfg session_list csv_rows k :
  sessions_with_records cfg session_list csv_rows (S k) =
    (sessions_with_records cfg session_list csv_rows k
     + (if (records_in cfg (session_rows session_list csv_rows k) =? 0)%nat
        then 0 else 1))%nat.
Proof.
  unfold sessions_with_records.
  rewrite seq_S, filter_app, length_app, filter_cons, filter_nil. simpl.
  destruct (Nat.eqb_spec (records_in cfg (session_rows session_list csv_rows k)) 0);
    case_decide; simpl; lia.
Qed.

(** The session writer's operations, run. *)
Lemma file_write_run name data w :
  name ∈ open_files w →
  file_write (Some name) data w =
    (OK (), {| files := alter (λ c, c +:+ data) name (files w);
               open_files := open_files w |}).
Proof. intros Hopen. unfold file_write. by rewrite decide_True. Qed.

Lemma format_filename_returns cfg id texts :
  py_format (kml_output_filename cfg) = OK texts →
  format_filename cfg id = OK (filename_of cfg id).
Proof.
  intros Hpattern. unfold format_filename, filename_of, pattern_texts.
  by rewrite Hpattern.
Qed.

Lemma format_filename_raises cfg id e :
  py_format (kml_output_filename cfg) = Raise e →
  format_filename cfg id = Raise e.
Proof. intros Hpattern. unfold format_filename. by rewrite Hpattern. Qed.

Lemma open_kml_session_file_run cfg n w texts :
  py_format (kml_output_filename cfg) = OK texts →
  open_kml_session_file cfg n w =
    (OK (filename_of cfg (session_id n), filename_of cfg (session_id n)),
     {| files := <[filename_of cfg (session_id n) := kml_header (session_id n)]>
                   (files w);
        open_files := {[filename_of cfg (session_id n)]} ∪ open_files w |}).
Proof.
  intros Hpattern.
  unfold open_kml_session_file, mbind at 1, IO_bind at 1, lift.
  rewrite (format_filename_returns _ _ _ Hpattern).
  unfold mbind, IO_bind, file_open.
  rewrite file_write_run by (cbn [open_files]; set_solver).
  cbn [files open_files mret IO_ret]. do 2 f_equal.
  apply map_eq. intros k.
  destruct (decide (k = filename_of cfg (session_id n))) as [->|Hne].
  - by rewrite lookup_alter_eq, !lookup_insert_eq.
  - by rewrite lookup_alter_ne, !lookup_insert_ne.
Qed.

(** A pattern [str.format] raises on: no session file is opened. *)
Lemma open_kml_session_file_raises cfg n w e :
  py_format (kml_output_filename cfg) = Raise e →
  open_kml_session_file cfg n w = (Raise e, w).
Proof.
  intros Hpattern.
  unfold open_kml_session_file, mbind, IO_bind, lift.
  by rewrite (format_filename_raises _ _ _ Hpattern).
Qed.

Lemma close_session_file_run name w :
  name ∈ open_files w →
  close_session_file (Some name) w =
    (OK (), {| files := alter (λ c, c +:+ kml_footer) name (files w);
               open_files := open_files w ∖ {[name]} |}).
Proof.
  intros Hopen. unfold close_session_file, mbind, IO_bind.
  by rewrite file_write_run.
Qed.

Lemma delete_session_file_run name w :
  is_Some (files w !! name) →
  delete_session_file name w =
    (OK (), {| files := delete name (files w); open_files := open_files w |}).
Proof.
  intros [c Hc]. unfold delete_session_file, os_remove. by rewrite Hc.
Qed.

Section Driver.
Variables (cfg : Config) (session_list : list nat) (csv_rows : list Row) (m : nat).
Variable texts : string * string.
Hypothesis Hfirst : session_list !! 0%nat = Some 0%nat.
Hypothesis Hinc : strictly_increasing session_list.
Hypothesis Hlast : last session_list = Some m.
Hypothesis Hpattern : py_format (kml_output_filename cfg) = OK texts.

Local Abbreviation boundary := (boundary session_list).
Local Abbreviation driver_inv := (driver_inv cfg session_list csv_rows).
Local Abbreviation between_rows := (between_rows cfg session_list csv_rows m).
Local Abbreviation aborted := (aborted cfg session_list csv_rows).

Lemma boundary_lookup j b : session_list !! j = Some b → boundary j = b.
Proof. intros Hb. unfold boundary. by rewrite Hb. Qed.

Lemma boundary_le_last j b : session_list !! j = Some b → (b ≤ m)%nat.
Proof.
  intros Hb. rewrite last_lookup in Hlast.
  assert (j < length session_list)%nat by (eapply lookup_lt_Some; eauto).
  destruct (decide (j = pred (length session_list))) as [->|Hne].
  - rewrite Hlast in Hb. injection Hb as ->. done.
  - assert (b < m)%nat; [|lia]. eapply (Hinc j); eauto. lia.
Qed.

Lemma session_file_ne (j k : nat) : j ≠ k → session_file cfg j ≠ session_file cfg k.
Proof.
  intros Hne Heq. apply session_file_inj in Heq. lia.
Qed.

Lemma start_session_spec i st w :
  between_rows i st w →
  ∃ st' w', start_session cfg session_list st w = (OK st', w')
    ∧ driver_inv true i i st' w'.
Proof.
  intros [Hm [Hrow [b Hb] Hstart Hnext Hrec Hwritten Hclosed Hlater Hcur]].
  pose proof (boundary_lookup _ _ Hb) as Hbd.
  unfold start_session, index, mbind, IO_bind, lift. rewrite Hb.
  rewrite Hbd in *. rewrite Hrow.
  destruct (Nat.eqb_spec b i) as [->|Hne].
  - rewrite bool_decide_eq_false_2 in Hcur by lia.
    destruct Hcur as [Hnone Hopen].
    rewrite (open_kml_session_file_run _ _ _ _ Hpattern).
    fold (session_file cfg (session_index st)).
    eexists _, _. split; [reflexivity|].
    split; cbn [session_index sessions_written csv_row_index kml_file
                kml_output_name kml_rows_written_this_session files open_files
                fst snd]; rewrite ?Hbd; eauto.
    + intros j Hj. rewrite lookup_insert_ne by (apply session_file_ne; lia).
      by apply Hclosed.
    + intros j Hj. rewrite lookup_insert_ne by (apply session_file_ne; lia).
      by apply Hlater.
    + split; [|split; [|done]].
      * rewrite lookup_insert_eq. by eexists.
      * by rewrite Hopen, (right_id_L ∅ (∪)).
  - rewrite bool_decide_eq_true_2 in Hcur by lia.
    eexists _, _. split; [reflexivity|].
    split; rewrite ?Hbd; eauto.
Qed.

Lemma session_prefix_snoc b i r :
  (b ≤ i)%nat → csv_rows !! i = Some r →
  take (i + 1 - b) (drop b csv_rows) = take (i - b) (drop b csv_rows) ++ [r].
Proof.
  intros Hbi Hr. replace (i + 1 - b)%nat with (S (i - b)) by lia.
  apply take_S_r. rewrite lookup_drop. by replace (b + (i - b))%nat with i by lia.
Qed.

Lemma write_row_spec i st w r :
  csv_rows !! i = Some r →
  driver_inv true i i st w →
  match write_row cfg st r w with
  | (OK st', w') => driver_inv true i (i + 1) st' w'
  | (Raise e, w') => w' = w ∧ rejected cfg r = false
  end.
Proof.
  intros Hr [Hrow Hsess Hstart Hnext Hrec Hwritten Hclosed Hlater Hcur].
  destruct Hcur as (Hfile & Hopen & Hkml & Hname).
  pose proof (session_prefix_snoc _ _ _ Hstart Hr) as Hsnoc.
  unfold write_row, mbind, IO_bind, lift.
  destruct (generate_kml_coordinate_string cfg r) as [[record|]|e] eqn:Hgen.
  - rewrite Hkml, file_write_run by (rewrite Hopen; set_solver).
    split; cbn [session_index sessions_written csv_row_index kml_file
                kml_output_name kml_rows_written_this_session files open_files];
      eauto.
    + rewrite Hsnoc, records_in_snoc, Hrec. unfold accepted. by rewrite Hgen.
    + intros j Hj. rewrite lookup_alter_ne by (apply session_file_ne; lia).
      by apply Hclosed.
    + intros j Hj. rewrite lookup_alter_ne by (apply session_file_ne; lia).
      by apply Hlater.
    + split; [|done]. rewrite lookup_alter_eq. by apply fmap_is_Some.
  - split; cbn [session_index sessions_written csv_row_index kml_file
                kml_output_name kml_rows_written_this_session files open_files];
      eauto.
    rewrite Hsnoc, records_in_snoc, Hrec. unfold accepted. rewrite Hgen. lia.
  - split; [done|]. unfold rejected. by rewrite Hgen.
Qed.

Lemma end_session_spec i st w :
  (i < length csv_rows)%nat →
  driver_inv true i (i + 1) st w →
  match end_session session_list st w with
  | (OK st', w') => between_rows (i + 1) (next_row st') w'
  | (Raise e, w') =>
      w' = w ∧ session_list !! (session_index st + 1)%nat = None
  end.
Proof.
  intros Hi [Hrow [b Hb] Hstart Hnext Hrec Hwritten Hclosed Hlater Hcur].
  destruct Hcur as (Hfile & Hopen & Hkml & Hname).
  pose proof (boundary_lookup _ _ Hb) as Hbd. rewrite Hbd in *.
  unfold end_session, index, mbind, IO_bind, lift.
  destruct (session_list !! (session_index st + 1)%nat) as [b'|] eqn:Hb'; [|done].
  pose proof (Hnext _ eq_refl) as Hlt.
  pose proof (boundary_le_last _ _ Hb') as Hle.
  pose proof (boundary_lookup _ _ Hb') as Hbd'.
  rewrite Hrow.
  destruct (Nat.eqb_spec b' (i + 1)) as [->|Hne].
  - assert (records_in cfg (session_rows session_list csv_rows (session_index st))
            = kml_rows_written_this_session st) as Hsession.
    { unfold session_rows. by rewrite Hb, Hb', Hrec. }
    rewrite Hkml, close_session_file_run by (rewrite Hopen; set_solver).
    set (file := session_file cfg (session_index st)) in *.
    assert (∀ j, j ≠ session_index st → session_file cfg j ≠ file) as Hfile_ne.
    { intros j Hj. by apply session_file_ne. }
    destruct (Nat.eqb_spec (kml_rows_written_this_session st) 0) as [Hzero|Hsome].
    + rewrite Hname, delete_session_file_run
        by (cbn [files]; rewrite lookup_alter_eq; by apply fmap_is_Some).
      split; [lia|].
      split; cbn [next_row session_index sessions_written csv_row_index kml_file
                  kml_output_name kml_rows_written_this_session files open_files
                  mret IO_ret fst snd];
        rewrite ?Hbd'; eauto.
      * intros b'' Hb''. eapply (Hinc (session_index st + 1) (session_index st + 1 + 1));
          eauto; lia.
      * by rewrite Nat.sub_diag, take_0.
      * replace (session_index st + 1)%nat with (S (session_index st)) by lia.
        rewrite sessions_with_records_S, Hsession, Hzero, Hwritten. simpl. lia.
      * intros j Hj. destruct (decide (j = session_index st)) as [->|Hjk].
        -- fold file. rewrite lookup_delete_eq, Hsession, Hzero.
           split; [by intros [? ?]|lia].
        -- rewrite lookup_delete_ne, lookup_alter_ne by (apply not_eq_sym; auto).
           apply Hclosed. lia.
      * intros j Hj.
        rewrite lookup_delete_ne, lookup_alter_ne by (apply not_eq_sym; apply Hfile_ne; lia).
        apply Hlater. lia.
      * rewrite bool_decide_eq_false_2 by lia. split.
        -- rewrite lookup_delete_ne, lookup_alter_ne
             by (apply not_eq_sym; apply Hfile_ne; lia).
           apply Hlater. lia.
        -- rewrite Hopen. apply difference_diag_L.
    + split; [lia|].
      split; cbn [next_row session_index sessions_written csv_row_index kml_file
                  kml_output_name kml_rows_written_this_session files open_files
                  mret IO_ret fst snd];
        rewrite ?Hbd'; eauto.
      * intros b'' Hb''. eapply (Hinc (session_index st + 1) (session_index st + 1 + 1));
          eauto; lia.
      * by rewrite Nat.sub_diag, take_0.
      * replace (session_index st + 1)%nat with (S (session_index st)) by lia.
        rewrite sessions_with_records_S, Hsession, Hwritten.
        rewrite (proj2 (Nat.eqb_neq _ _) Hsome). lia.
      * intros j Hj. destruct (decide (j = session_index st)) as [->|Hjk].
        -- fold file. rewrite lookup_alter_eq, Hsession.
           split; [lia|]. intros _. by apply fmap_is_Some.
        -- rewrite lookup_alter_ne by (apply not_eq_sym; auto).
           apply Hclosed. lia.
      * intros j Hj.
        rewrite lookup_alter_ne by (apply not_eq_sym; apply Hfile_ne; lia).
        apply Hlater. lia.
      * rewrite bool_decide_eq_false_2 by lia. split.
        -- rewrite lookup_alter_ne by (apply not_eq_sym; apply Hfile_ne; lia).
           apply Hlater. lia.
        -- rewrite Hopen. apply difference_diag_L.
  - split; [lia|]. cbn [next_row session_index]. rewrite Hbd.
    rewrite bool_decide_eq_true_2 by lia.
    split; cbn [next_row session_index sessions_written csv_row_index kml_file
                kml_output_name kml_rows_written_this_session];
      rewrite ?Hbd; eauto.
    + lia.
    + intros b'' Hb''. rewrite Hb' in Hb''. injection Hb'' as <-. lia.
Qed.

Lemma closed_session_rejected st w j :
  (∀ j, j < session_index st →
     is_Some (files w !! session_file cfg j)
     ↔ 0 < records_in cfg (session_rows session_list csv_rows j)) →
  j < session_index st →
  forallb (rejected cfg) (session_rows session_list csv_rows j) = true →
  files w !! session_file cfg j = None.
Proof.
  intros Hclosed Hj Hrej. apply eq_None_not_Some. intros Hsome.
  apply Hclosed in Hsome; [|done].
  rewrite records_in_rejected in Hsome by done. lia.
Qed.

Lemma aborted_at_row i st w r :
  csv_rows !! i = Some r → driver_inv true i i st w → rejected cfg r = false →
  aborted w.
Proof.
  intros Hr [Hrow [b Hb] Hstart Hnext Hrec Hwritten Hclosed Hlater Hcur] Hrej.
  destruct Hcur as (Hfile & Hopen & Hkml & Hname).
  rewrite (boundary_lookup _ _ Hb) in Hstart.
  split; [by eexists|]. intros j Hj Hall.
  destruct (lt_eq_lt_dec j (session_index st)) as [[Hlt| ->]|Hgt].
  - by eapply closed_session_rejected.
  - apply lookup_lt_is_Some_2 in Hj as [b' Hb'].
    pose proof (Hnext _ Hb') as Hib'.
    unfold session_rows in Hall. rewrite Hb, Hb' in Hall.
    rewrite forallb_forall in Hall. rewrite (Hall r) in Hrej; [done|].
    apply list_elem_of_In, list_elem_of_lookup. exists (i - b).
    rewrite lookup_take_lt, lookup_drop by lia.
    by replace (b + (i - b)) with i by lia.
  - by apply Hlater.
Qed.

Lemma aborted_at_end i n st w :
  driver_inv true i n st w →
  session_list !! (session_index st + 1) = None →
  aborted w.
Proof.
  intros [Hrow [b Hb] Hstart Hnext Hrec Hwritten Hclosed Hlater Hcur] Hnone.
  destruct Hcur as (Hfile & Hopen & Hkml & Hname).
  split; [by eexists|]. intros j Hj Hall.
  apply lookup_ge_None_1 in Hnone.
  eapply closed_session_rejected; eauto. lia.
Qed.

Lemma driver_body_spec i st w r :
  csv_rows !! i = Some r → between_rows i st w →
  match driver_body cfg session_list st r w with
  | (OK st', w') => between_rows (i + 1) st' w'
  | (Raise e, w') => aborted w'
  end.
Proof.
  intros Hr Hbetween.
  destruct (start_session_spec _ _ _ Hbetween) as (st1 & w1 & Hstart & Hinv1).
  unfold driver_body, mbind, IO_bind. rewrite Hstart.
  pose proof (write_row_spec _ _ _ _ Hr Hinv1) as Hwrite.
  destruct (write_row cfg st1 r w1) as [[st2|e] w2].
  2:{ destruct Hwrite as [-> Hrej]. by eapply aborted_at_row. }
  assert (i < length csv_rows) as Hi by (eapply lookup_lt_Some; eauto).
  pose proof (end_session_spec _ _ _ Hi Hwrite) as Hend.
  destruct (end_session session_list st2 w2) as [[st3|e] w3].
  - done.
  - destruct Hend as [-> Hnone]. by eapply aborted_at_end.
Qed.

Lemma between_rows_init : between_rows 0 driver_init empty_directory.
Proof.
  split; [lia|]. cbn [driver_init session_index].
  rewrite (boundary_lookup _ _ Hfirst).
  rewrite bool_decide_eq_false_2 by lia.
  split; cbn [driver_init session_index sessions_written csv_row_index kml_file
              kml_output_name kml_rows_written_this_session empty_directory
              files open_files]; rewrite ?(boundary_lookup _ _ Hfirst); eauto.
  intros j Hj. lia.
Qed.

(** The row loop of the driver. *)
Lemma driver_loop :
  match for_each_io (driver_body cfg session_list) driver_init csv_rows
          empty_directory with
  | (OK st, w) => between_rows (length csv_rows) st w
  | (Raise e, w) => aborted w
  end.
Proof.
  apply (for_each_io_invariant _ _ between_rows (λ _ w, aborted w)).
  - intros i st w r Hr Hbetween. by apply driver_body_spec.
  - apply between_rows_init.
Qed.

(** After the last row, when the sentinel does not exceed the number of
    rows: every session is closed and counted when it holds a record. *)
Lemma between_rows_end st w :
  m ≤ length csv_rows →
  between_rows (length csv_rows) st w →
  csv_row_index st = length csv_rows
  ∧ length csv_rows = m
  ∧ session_index st + 1 = length session_list
  ∧ open_files w = ∅
  ∧ sessions_written st =
      sessions_with_records cfg session_list csv_rows (length session_list - 1)
  ∧ ∀ j, j + 1 < length session_list →
      is_Some (files w !! session_file cfg j)
      ↔ 0 < records_in cfg (session_rows session_list csv_rows j).
Proof.
  intros Hm [Hle [Hrow [b Hb] Hstart Hnext Hrec Hwritten Hclosed Hlater Hcur]].
  assert (length csv_rows = m) as Hlen by lia.
  assert (session_list !! (session_index st + 1) = None) as Hnone.
  { destruct (session_list !! (session_index st + 1)) as [b'|] eqn:Hb'; [|done].
    pose proof (Hnext _ eq_refl). pose proof (boundary_le_last _ _ Hb'). lia. }
  apply lookup_ge_None_1 in Hnone.
  assert (session_index st < length session_list) as Hk
    by (eapply lookup_lt_Some; eauto).
  assert (session_index st + 1 = length session_list) as Hlast_session by lia.
  assert (b = m) as ->.
  { rewrite last_lookup in Hlast.
    replace (pred (length session_list)) with (session_index st) in Hlast by lia.
    congruence. }
  rewrite (boundary_lookup _ _ Hb) in *.
  rewrite bool_decide_eq_false_2 in Hcur by lia.
  destruct Hcur as [_ Hopen].
  split_and!; try done.
  - rewrite Hwritten. f_equal. lia.
  - intros j Hj. apply Hclosed. lia.
Qed.

End Driver.

(** The driver, once the session list is known. *)
Lemma convert_with_session_list cfg csv_rows session_list w :
  get_session_list csv_rows = OK session_list →
  convert_userdatalog_csv_to_kml cfg csv_rows w =
    match for_each_io (driver_body cfg session_list) driver_init csv_rows w with
    | (OK st, w') =>
        match truediv (float_of_nat (csv_rows_rejected st)) (csv_row_index st),
              truediv (float_of_nat (sessions_written st)) (length session_list - 1)
        with
        | OK csv_row_rejection_pct, OK session_quotient =>
            (OK (Some {| stat_csv_rows_read := csv_row_index st;
                         stat_csv_rows_rejected := csv_rows_rejected st;
                         stat_csv_row_rejection_pct := csv_row_rejection_pct;
                         stat_sessions_detected := length session_list - 1;
                         stat_sessions_written := sessions_written st;
                         stat_session_rejection_pct := (1 - session_quotient)%float;
                         stat_kml_rows_written := kml_rows_written_total st |}), w')
        | Raise e, _ => (Raise e, w')
        | OK _, Raise e => (Raise e, w')
        end
    | (Raise e, w') => (Raise e, w')
    end.
Proof.
  intros Hlist.
  destruct (get_session_list_shape _ _ Hlist) as (Hfirst & _).
  unfold convert_userdatalog_csv_to_kml, mbind at 1, IO_bind at 1, lift at 1.
  rewrite Hlist. destruct session_list as [|b session_list]; [done|].
  unfold mbind, IO_bind, lift.
  destruct (for_each_io _ _ _ _) as [[st|e] w']; [|done].
  destruct (truediv _ (csv_row_index st)); [|done].
  by destruct (truediv _ _).
Qed.

(** C7, on the code: on an input without rows the driver raises
    [ZeroDivisionError] instead of reporting statistics. The session list
    is [[0]], never empty, so the early return is not taken, and the
    rejected rows are divided by the zero rows read. *)
Theorem zero_rows_division (cfg : Config) (w : World) :
  get_session_list [] = OK [0]
  ∧ convert_userdatalog_csv_to_kml cfg [] w = (Raise ZeroDivisionError, w).
Proof. split; reflexivity. Qed.




(** *** The row index in the two passes *)

Lemma indexer_row_index_spec csv_rows p i :
  indexer_row_index csv_rows p = OK i →
  i = length (considered (take p csv_rows)).
Proof.
  unfold indexer_row_index.
  pose proof (indexer_loop (take p csv_rows) indexer_init indexer_inv_init) as Hloop.
  destruct (for_each indexer_body indexer_init (take p csv_rows)) as [st|e];
    simpl; [|done].
  intros [= <-]. by destruct Hloop as (_ & -> & _).
Qed.

Lemma driver_body_row_index cfg session_list st r w st' w' :
  driver_body cfg session_list st r w = (OK st', w') →
  csv_row_index st' = csv_row_index st + 1.
Proof.
  unfold driver_body, mbind, IO_bind. intros Hbody.
  destruct (start_session cfg session_list st w) as [[st1|?] w1] eqn:Hstart;
    [|done].
  destruct (write_row cfg st1 r w1) as [[st2|?] w2] eqn:Hwrite; [|done].
  destruct (end_session session_list st2 w2) as [[st3|?] w3] eqn:Hend; [|done].
  injection Hbody as <- <-.
  assert (csv_row_index st1 = csv_row_index st) as <-.
  { unfold start_session, mbind, IO_bind, lift in Hstart.
    destruct (index session_list (session_index st)); [|done].
    destruct (_ =? _); [|by injection Hstart as <-].
    destruct (open_kml_session_file _ _ _) as [[opened|] ?]; [|done].
    by injection Hstart as <-. }
  assert (csv_row_index st2 = csv_row_index st1) as <-.
  { unfold write_row, mbind, IO_bind, lift in Hwrite.
    destruct (generate_kml_coordinate_string cfg r) as [[record|]|]; [| |done].
    - destruct (file_write _ _ _) as [[[]|] ?]; [|done]. by injection Hwrite as <-.
    - by injection Hwrite as <-. }
  assert (csv_row_index st3 = csv_row_index st2) as <-; [|done].
  unfold end_session, mbind, IO_bind, lift in Hend.
  destruct (index session_list (session_index st2 + 1)); [|done].
  destruct (_ =? _); [|by injection Hend as <-].
  destruct (close_session_file _ _) as [[[]|] ?]; [|done].
  destruct (_ =? _).
  - destruct (delete_session_file _ _) as [[[]|] ?]; [|done]. by injection Hend as <-.
  - by injection Hend as <-.
Qed.

Lemma driver_row_index_spec cfg session_list csv_rows p i :
  driver_row_index cfg session_list csv_rows p = OK i →
  i = length (take p csv_rows).
Proof.
  unfold driver_row_index.
  pose proof (for_each_io_invariant (driver_body cfg session_list) (take p csv_rows)
                (λ i st _, csv_row_index st = i) (λ _ _, True)) as Hloop.
  specialize (Hloop ltac:(
    intros j st w r _ <-;
    destruct (driver_body cfg session_list st r w) as [[st'|?] w'] eqn:Hbody;
      [by apply driver_body_row_index in Hbody|done]) driver_init empty_directory eq_refl).
  destruct (for_each_io _ _ _ _) as [[st|?] w]; simpl; [|done].
  by intros [= <-].
Qed.

(** X12. The driver's index of a row is the indexer's index plus the
    number of rows without session time before it: the two passes number
    a row alike exactly when no row before it lacks a session time. *)
Lemma row_index_difference cfg session_list csv_rows p i i' :
  indexer_row_index csv_rows p = OK i →
  driver_row_index cfg session_list csv_rows p = OK i' →
  i' = i + length (filter (λ r, blank (col_session_time r) = true) (take p csv_rows)).
Proof.
  intros ->%indexer_row_index_spec ->%driver_row_index_spec.
  unfold considered. induction (take p csv_rows) as [|r rows IH]; [done|].
  rewrite !filter_cons. destruct (blank (col_session_time r));
    repeat case_decide; try done; simpl; lia.
Qed.

(** A pattern [str.format] raises on ends the run at the first row, before
    any file is opened. *)
Lemma driver_loop_pattern_raises cfg session_list r rows e w :
  session_list !! 0 = Some 0 →
  py_format (kml_output_filename cfg) = Raise e →
  for_each_io (driver_body cfg session_list) driver_init (r :: rows) w
    = (Raise e, w).
Proof.
  intros Hfirst Hpattern.
  assert (start_session cfg session_list driver_init w = (Raise e, w)) as Hstart.
  { unfold start_session, index, mbind, IO_bind, lift.
    cbn [driver_init csv_row_index session_index]. rewrite Hfirst.
    cbn [Nat.eqb]. by rewrite (open_kml_session_file_raises _ _ _ _ Hpattern). }
  rewrite for_each_io_cons. unfold driver_body, mbind, IO_bind.
  by rewrite Hstart.
Qed.

(** What the driver leaves behind, by the way it ends. *)
Lemma convert_outcome cfg csv_rows session_list :
  get_session_list csv_rows = OK session_list →
  match convert_userdatalog_csv_to_kml cfg csv_rows empty_directory with
  | (OK None, w) => False
  | (OK (Some stats), w) =>
      csv_rows ≠ []
      ∧ open_files w = ∅
      ∧ stat_sessions_detected stats = length session_list - 1
      ∧ stat_sessions_written stats =
          sessions_with_records cfg session_list csv_rows (length session_list - 1)
      ∧ (∀ j, j + 1 < length session_list →
          is_Some (files w !! session_file cfg j)
          ↔ 0 < records_in cfg (session_rows session_list csv_rows j))
      ∧ ∃ texts, py_format (kml_output_filename cfg) = OK texts
  | (Raise e, w) =>
      (csv_rows = [] ∧ e = ZeroDivisionError ∧ w = empty_directory)
      ∨ (csv_rows ≠ [] ∧ py_format (kml_output_filename cfg) = Raise e
         ∧ w = empty_directory)
      ∨ (csv_rows ≠ [] ∧ (∃ texts, py_format (kml_output_filename cfg) = OK texts)
         ∧ aborted cfg session_list csv_rows w)
  end.
Proof.
  intros Hlist.
  destruct (get_session_list_shape _ _ Hlist) as (Hfirst & Hinc & Hlast & Hm).
  rewrite (convert_with_session_list _ _ _ _ Hlist).
  destruct csv_rows as [|r rows].
  { injection Hlist as <-. left. done. }
  destruct (py_format (kml_output_filename cfg)) as [texts|e0] eqn:Hpattern.
  2:{ rewrite (driver_loop_pattern_raises _ _ _ _ _ _ Hfirst Hpattern).
      right. left. done. }
  pose proof (driver_loop cfg session_list (r :: rows) _ texts Hfirst Hinc Hlast
                Hpattern) as Hloop.
  destruct (for_each_io _ _ _ _) as [[st|e] w].
  2:{ right. right. split_and!; [done|by eauto|done]. }
  apply between_rows_end in Hloop as (Hrow & Hlen & Hk & Hopen & Hwritten & Hfiles);
    [|done..].
  assert (length session_list - 1 ≠ 0) as Hdetected.
  { intros Hzero. rewrite last_lookup in Hlast.
    replace (pred (length session_list)) with 0 in Hlast by lia.
    rewrite Hfirst in Hlast. injection Hlast as Hlast.
    rewrite <- Hlast in Hlen. simpl in Hlen. lia. }
  unfold truediv. rewrite Hrow. simpl length.
  rewrite (proj2 (Nat.eqb_neq _ _) Hdetected). simpl.
  split_and!; [done..|by eauto].
Qed.


(** X13. In a log whose rows all have a session time, a session whose
    rows the validator all rejects has no file after the run, however the
    run ends, and holds no record; when the run ends with its statistics,
    the sessions written are the sessions that hold a record, and each of
    those has its file. *)
Theorem empty_sessions_discarded (cfg : Config) (csv_rows : list Row)
    (session_list : list nat) :
  get_session_list csv_rows = OK session_list →
  considered csv_rows = csv_rows →
  (∀ j, j + 1 < length session_list →
     forallb (rejected cfg) (session_rows session_list csv_rows j) = true →
     files (convert_userdatalog_csv_to_kml cfg csv_rows empty_directory).2
       !! session_file cfg j = None
     ∧ records_in cfg (session_rows session_list csv_rows j) = 0)
  ∧ (∀ stats,
       (convert_userdatalog_csv_to_kml cfg csv_rows empty_directory).1
         = OK (Some stats) →
       stat_sessions_detected stats = length session_list - 1
       ∧ stat_sessions_written stats =
           sessions_with_records cfg session_list csv_rows (length session_list - 1)
       ∧ ∀ j, j + 1 < length session_list →
           0 < records_in cfg (session_rows session_list csv_rows j) →
           is_Some (files (convert_userdatalog_csv_to_kml cfg csv_rows
                             empty_directory).2 !! session_file cfg j)).
Proof.
  intros Hlist _. pose proof (convert_outcome cfg _ _ Hlist) as Hout.
  destruct (convert_userdatalog_csv_to_kml _ _ _) as [[[stats|]|e] w];
    cbn [fst snd]; [|done|].
  - destruct Hout as (_ & _ & Hdetected & Hwritten & Hfiles & _). split.
    + intros j Hj Hall. pose proof (records_in_rejected _ _ Hall) as Hzero.
      split; [|done]. apply eq_None_not_Some. intros Hsome.
      apply Hfiles in Hsome; [lia|done].
    + intros ? [= <-]. split_and!; [done..|].
      intros j Hj Hsome. by apply Hfiles.
  - split; [|done]. intros j Hj Hall. split; [|by apply records_in_rejected].
    destruct Hout as [(_ & _ & ->)|[(_ & _ & ->)|(_ & _ & _ & Hnone)]];
      [done|done|by apply Hnone].
Qed.

(** * Further properties *)

(** ** Session indexer *)

Lemma indexer_loop_considered (csv_rows : list Row) : ∀ st,
  for_each indexer_body st csv_rows = for_each indexer_body st (considered csv_rows).
Proof.
  induction csv_rows as [|r rows IH]; intros st; [done|].
  rewrite considered_cons.
  destruct (blank (col_session_time r)) eqn:Hb.
  - rewrite for_each_cons, indexer_body_blank by done. apply IH.
  - rewrite !for_each_cons. destruct (indexer_body st r); simpl; [apply IH|done].
Qed.

(** X1. Rows without session time have no part in the session list: the
    indexer returns what it returns on the rows that have one. *)
Theorem blank_rows_ignored (csv_rows : list Row) :
  get_session_list csv_rows = get_session_list (considered csv_rows).
Proof. unfold get_session_list. by rewrite indexer_loop_considered. Qed.

Lemma break_at_lookup (ts : list float) : ∀ prev p,
  break_at prev ts (S p) = true
  ↔ ∃ a b, ts !! p = Some a ∧ ts !! S p = Some b ∧ (b <? a)%float = true.
Proof.
  induction ts as [|t ts IH]; intros prev p; simpl.
  { split; [done|]. by intros (a & b & Ha & _). }
  destruct ts as [|t' ts'].
  { simpl. split; [done|]. intros (a & b & _ & Hb & _). by destruct p. }
  destruct p as [|p].
  - simpl. split.
    + intros Hlt. by exists t, t'.
    + by intros (a & b & [= <-] & [= <-] & Hlt).
  - rewrite IH. done.
Qed.

Lemma indexer_loop_boundaries (csv_rows : list Row) : ∀ st,
  match for_each indexer_body st csv_rows with
  | OK st' =>
      ∃ new, ix_session_list st' = ix_session_list st ++ new
        ∧ ∀ x, x ∈ new ↔
            (ix_csv_row_index st ≤ x
             ∧ x < ix_csv_row_index st + length (session_times csv_rows))
            ∧ (x = 0
               ∨ break_at (ix_last_session_time st) (session_times csv_rows)
                   (x - ix_csv_row_index st) = true)
  | Raise _ => True
  end.
Proof.
  induction csv_rows as [|r rows IH]; intros st.
  - simpl. exists []. split; [by rewrite app_nil_r|].
    intros x. split; [by intros ?%elem_of_nil|lia].
  - rewrite for_each_cons, session_times_cons. unfold row_time.
    destruct (blank (col_session_time r)) eqn:Hb.
    { rewrite indexer_body_blank by done. apply IH. }
    rewrite indexer_body_time by done.
    destruct (blank_false _ Hb) as (s & Hs & Hne). rewrite Hs. simpl.
    destruct (py_float s) as [t|] eqn:Ht; simpl; [|done].
    set (st1 := {| ix_session_list := _ |}).
    specialize (IH st1).
    destruct (for_each indexer_body st1 rows) as [st'|]; [|done].
    destruct IH as (new & Hlist & Hnew).
    unfold st1 in Hlist, Hnew. cbn [ix_session_list ix_csv_row_index
                                      ix_last_session_time] in Hlist, Hnew.
    set (idx := ix_csv_row_index st) in *.
    destruct ((idx =? 0) || (t <? ix_last_session_time st)%float) eqn:Hstart.
    + exists (idx :: new). split; [by rewrite Hlist, <- app_assoc|].
      intros x. rewrite elem_of_cons, Hnew.
      destruct (decide (x = idx)) as [->|Hx].
      * rewrite Nat.sub_diag. simpl. split; [|by left].
        intros _. split; [lia|].
        apply orb_prop in Hstart as [Hzero%Nat.eqb_eq|Hlt]; [by left|by right].
      * simpl. split.
        -- intros [?|[[Hlo Hhi] Hbr]]; [done|]. split; [lia|].
           destruct Hbr as [?|Hbr]; [by left|right].
           by replace (x - idx) with (S (x - (idx + 1))) by lia.
        -- intros [[Hlo Hhi] Hbr]. right. split; [lia|].
           destruct Hbr as [?|Hbr]; [by left|right].
           by replace (x - idx) with (S (x - (idx + 1))) in Hbr by lia.
    + exists new. split; [done|].
      apply orb_false_elim in Hstart as [Hzero%Nat.eqb_neq Hlt].
      intros x. rewrite Hnew.
      destruct (decide (x = idx)) as [->|Hx].
      * rewrite Nat.sub_diag. simpl. rewrite Hlt. split; [lia|].
        intros [_ [?|?]]; [lia|done].
      * simpl. split.
        -- intros [[Hlo Hhi] Hbr]. split; [lia|].
           destruct Hbr as [?|Hbr]; [by left|right].
           by replace (x - idx) with (S (x - (idx + 1))) by lia.
        -- intros [[Hlo Hhi] Hbr]. split; [lia|].
           destruct Hbr as [?|Hbr]; [by left|right].
           by replace (x - idx) with (S (x - (idx + 1))) in Hbr by lia.
Qed.

(** X2. The session list holds exactly the sentinel and the rows that
    start a session, the rows with a session time being numbered from 0: a
    row starts a session when it is the first one or its time is below the
    time of the row before it. *)
Theorem session_boundaries (csv_rows : list Row) (session_list : list nat) :
  get_session_list csv_rows = OK session_list →
  ∀ x, x ∈ session_list ↔
    x = length (session_times csv_rows)
    ∨ (x < length (session_times csv_rows)
       ∧ starts_session (session_times csv_rows) x).
Proof.
  unfold get_session_list. intros Hlist x.
  pose proof (indexer_loop_boundaries csv_rows indexer_init) as Hloop.
  pose proof (indexer_loop csv_rows indexer_init indexer_inv_init) as Hcount.
  destruct (for_each indexer_body indexer_init csv_rows) as [st|]; [|done].
  destruct Hloop as (new & Hnew & Hx). destruct Hcount as (_ & Hidx & Hlen & _).
  simpl in Hlist, Hnew, Hx, Hidx. injection Hlist as <-.
  rewrite Hnew, Hidx, <- Hlen, elem_of_app, list_elem_of_singleton, Hx.
  rewrite Nat.sub_0_r. unfold starts_session.
  split.
  - intros [[[_ Hlt] Hstart]| ->]; [|by left]. right. split; [done|].
    destruct Hstart as [->|Hbreak]; [by left|].
    destruct x as [|p]; [by left|]. right.
    apply break_at_lookup in Hbreak. by rewrite Nat.sub_succ, Nat.sub_0_r.
  - intros [->|[Hlt Hstart]]; [by right|]. left. split; [lia|].
    destruct Hstart as [->|(a & b & Ha & Hb & Hlt')]; [by left|].
    destruct x as [|p]; [by left|]. right.
    apply break_at_lookup. rewrite Nat.sub_succ, Nat.sub_0_r in Ha. eauto.
Qed.

(** X3. The session list begins with 0, and it is the sentinel 0 alone
    exactly when no row has a session time. *)
Theorem first_boundary (csv_rows : list Row) (session_list : list nat) :
  get_session_list csv_rows = OK session_list →
  session_list !! 0 = Some 0
  ∧ (considered csv_rows = [] ↔ session_list = [0]).
Proof.
  intros Hlist.
  destruct (get_session_list_shape _ _ Hlist) as (Hfirst & Hinc & Hlast & _).
  split; [done|]. split.
  - intros Hnone. rewrite Hnone in Hlast. simpl in Hlast.
    destruct session_list as [|b [|b' l]]; [done|by injection Hfirst as ->|].
    exfalso. injection Hfirst as ->.
    rewrite last_lookup in Hlast.
    assert (0 < 0); [|lia].
    eapply (Hinc 0 (pred (length (0 :: b' :: l)))); eauto. simpl. lia.
  - intros ->. simpl in Hlast. injection Hlast as Hlast.
    by destruct (considered csv_rows).
Qed.

(** ** Session writer *)

(** X4. Sessions with different numbers are written to different files,
    whatever the output pattern. *)
Theorem session_files_distinct (cfg : Config) (j k : nat) :
  j ≠ k → session_file cfg j ≠ session_file cfg k.
Proof.
  intros Hne Heq. apply session_file_inj in Heq. lia.
Qed.

Lemma zeros_length (k : nat) : String.length (zeros k) = k.
Proof. induction k as [|k IH]; simpl; [done|by rewrite IH]. Qed.

Lemma str_nat_short (n : nat) : n < 1000 → String.length (str_nat n) ≤ 3.
Proof.
  intros Hn.
  assert (forallb (λ n, String.length (str_nat n) <=? 3) (seq 0 1000) = true)
    as Hall by (vm_compute; reflexivity).
  rewrite forallb_forall in Hall.
  apply Nat.leb_le, Hall, in_seq. lia.
Qed.

(** X5. A session identifier is the letter S and the session number in
    decimal, filled with zeros to three digits when it has fewer: the
    digits read back as the session number, there are as many as the number
    has and at least three, and the identifier of a session below 1000 has
    four characters. *)
Theorem session_id_format (n : nat) :
  ∃ digits,
    session_id n = "S" +:+ digits
    ∧ Nat.of_uint <$> NilEmpty.uint_of_string digits = Some n
    ∧ String.length digits = max 3 (String.length (str_nat n))
    ∧ (n < 1000 → String.length (session_id n) = 4).
Proof.
  exists (zfill 3 (str_nat n)).
  assert (String.length (zfill 3 (str_nat n)) = max 3 (String.length (str_nat n)))
    as Hlen.
  { unfold zfill. rewrite string_app_length, zeros_length. lia. }
  split_and!; [done|apply read_zfill|done|].
  intros Hn. pose proof (str_nat_short n Hn) as Hshort.
  unfold session_id. rewrite string_app_length, Hlen. simpl. lia.
Qed.

(** ** Conversion driver *)

Section DriverRuns.
Variables (cfg : Config) (session_list : list nat) (csv_rows : list Row) (m : nat).
Variable texts : string * string.
Hypothesis Hfirst : session_list !! 0 = Some 0.
Hypothesis Hinc : strictly_increasing session_list.
Hypothesis Hlast : last session_list = Some m.
Hypothesis Hpattern : py_format (kml_output_filename cfg) = OK texts.

Local Abbreviation boundary := (boundary session_list).
Local Abbreviation driver_inv := (driver_inv cfg session_list csv_rows).
Local Abbreviation between_rows := (between_rows cfg session_list csv_rows m).





End DriverRuns.


Lemma indexer_loop_parses (csv_rows : list Row) : ∀ st st',
  for_each indexer_body st csv_rows = OK st' → ¬ bad_session_time csv_rows.
Proof.
  induction csv_rows as [|r rows IH]; intros st st' Hloop (r' & s & Hin & Hs & Hne & Hbad).
  { by apply elem_of_nil in Hin. }
  rewrite for_each_cons in Hloop.
  destruct (indexer_body st r) as [st1|] eqn:Hbody; simpl in Hloop; [|done].
  apply elem_of_cons in Hin as [->|Hin].
  - rewrite indexer_body_time in Hbody by (rewrite Hs; by apply blank_text).
    rewrite Hs in Hbody. simpl in Hbody. by rewrite Hbad in Hbody.
  - apply (IH _ _ Hloop). by exists r', s.
Qed.


Lemma driver_body_counts cfg session_list st r w st' w' :
  driver_body cfg session_list st r w = (OK st', w') →
  kml_rows_written_total st' =
    kml_rows_written_total st + (if accepted cfg r then 1 else 0)
  ∧ csv_rows_rejected st' = csv_rows_rejected st + (if accepted cfg r then 0 else 1).
Proof.
  unfold driver_body, mbind, IO_bind. intros Hbody.
  destruct (start_session cfg session_list st w) as [[st1|?] w1] eqn:Hstart;
    [|done].
  destruct (write_row cfg st1 r w1) as [[st2|?] w2] eqn:Hwrite; [|done].
  destruct (end_session session_list st2 w2) as [[st3|?] w3] eqn:Hend; [|done].
  injection Hbody as <- <-.
  assert (kml_rows_written_total st1 = kml_rows_written_total st
          ∧ csv_rows_rejected st1 = csv_rows_rejected st) as [<- <-].
  { unfold start_session, mbind, IO_bind, lift in Hstart.
    destruct (index session_list (session_index st)); [|done].
    destruct (_ =? _); [|by injection Hstart as <-].
    destruct (open_kml_session_file _ _ _) as [[opened|] ?]; [|done].
    by injection Hstart as <-. }
  assert (kml_rows_written_total st3 = kml_rows_written_total st2
          ∧ csv_rows_rejected st3 = csv_rows_rejected st2) as [Ht Hr].
  { unfold end_session, mbind, IO_bind, lift in Hend.
    destruct (index session_list (session_index st2 + 1)); [|done].
    destruct (_ =? _); [|by injection Hend as <-].
    destruct (close_session_file _ _) as [[[]|] ?]; [|done].
    destruct (_ =? _).
    - destruct (delete_session_file _ _) as [[[]|] ?]; [|done].
      by injection Hend as <-.
    - by injection Hend as <-. }
  cbn [next_row kml_rows_written_total csv_rows_rejected]. rewrite Ht, Hr.
  unfold write_row, mbind, IO_bind, lift in Hwrite. unfold accepted.
  destruct (generate_kml_coordinate_string cfg r) as [[record|]|]; [| |done].
  - destruct (file_write _ _ _) as [[[]|] ?]; [|done].
    injection Hwrite as <-. simpl. lia.
  - injection Hwrite as <-. simpl. lia.
Qed.

(** X7. The statistics of a completed run: the rows read are the rows of
    the input, the rows written are the rows the validator accepts, rows
    written and rows rejected add up to the rows read, and of the sessions
    detected, at least one, no more are written than detected. *)
Theorem statistics_accounting (cfg : Config) (csv_rows : list Row)
    (stats : Statistics) (w : World) :
  convert_userdatalog_csv_to_kml cfg csv_rows empty_directory
    = (OK (Some stats), w) →
  stat_csv_rows_read stats = length csv_rows
  ∧ stat_kml_rows_written stats = records_in cfg csv_rows
  ∧ stat_csv_rows_rejected stats + stat_kml_rows_written stats = length csv_rows
  ∧ 1 ≤ stat_sessions_detected stats
  ∧ stat_sessions_written stats ≤ stat_sessions_detected stats.
Proof.
  intros Hrun.
  destruct (get_session_list csv_rows) as [session_list|e] eqn:Hlist.
  2:{ unfold convert_userdatalog_csv_to_kml, mbind, IO_bind, lift in Hrun.
      by rewrite Hlist in Hrun. }
  pose proof (convert_outcome cfg _ _ Hlist) as Hout. rewrite Hrun in Hout.
  destruct Hout as (_ & _ & Hdetected & Hwritten & _).
  rewrite (convert_with_session_list _ _ _ _ Hlist) in Hrun.
  pose proof (for_each_io_invariant (driver_body cfg session_list) csv_rows
    (λ i st _, csv_row_index st = i
              ∧ kml_rows_written_total st = records_in cfg (take i csv_rows)
              ∧ csv_rows_rejected st + kml_rows_written_total st = i)
    (λ _ _, True)) as Hloop.
  specialize (Hloop ltac:(
    intros i st w0 r Hr (Hrow & Htotal & Hsum);
    destruct (driver_body cfg session_list st r w0) as [[st'|?] w'] eqn:Hbody;
      [|done];
    pose proof (driver_body_row_index _ _ _ _ _ _ _ Hbody) as Hrow';
    apply driver_body_counts in Hbody as [Ht Hr'];
    replace (i + 1) with (S i) by lia;
    rewrite (take_S_r _ _ _ Hr), records_in_snoc;
    destruct (accepted cfg r); lia) driver_init empty_directory
    ltac:(cbn beta; by rewrite take_0)).
  destruct (for_each_io _ _ _ _) as [[st|?] w']; [|done].
  destruct Hloop as (Hrow & Htotal & Hsum).
  rewrite firstn_all in Htotal.
  unfold truediv in Hrun.
  destruct (csv_row_index st =? 0); [done|].
  destruct (length session_list - 1 =? 0) eqn:Hzero; [done|].
  apply Nat.eqb_neq in Hzero.
  injection Hrun as <- <-. cbn [stat_csv_rows_read stat_kml_rows_written
    stat_csv_rows_rejected stat_sessions_detected stat_sessions_written] in *.
  split_and!; [done|done|lia|lia|].
  rewrite Hwritten. unfold sessions_with_records.
  etrans; [apply length_filter|]. by rewrite length_seq.
Qed.

(** *** The documents written *)

Lemma string_app_assoc (a b c : string) : (a +:+ b) +:+ c = a +:+ b +:+ c.
Proof.
  induction a as [|x a IH]; [done|].
  change (String x ((a +:+ b) +:+ c) = String x (a +:+ b +:+ c)). by rewrite IH.
Qed.

Lemma string_app_nil_r (a : string) : a +:+ "" = a.
Proof.
  induction a as [|x a IH]; [done|].
  change (String x (a +:+ "") = String x a). by rewrite IH.
Qed.

Lemma records_text_snoc cfg rows r :
  records_text cfg (rows ++ [r]) = records_text cfg rows +:+ record_of cfg r.
Proof.
  induction rows as [|r' rows IH]; simpl.
  - by rewrite string_app_nil_r.
  - by rewrite IH, string_app_assoc.
Qed.

Section Documents.
Variables (cfg : Config) (session_list : list nat) (csv_rows : list Row) (m : nat).
Variable texts : string * string.
Hypothesis Hfirst : session_list !! 0 = Some 0.
Hypothesis Hinc : strictly_increasing session_list.
Hypothesis Hlast : last session_list = Some m.
Hypothesis Hpattern : py_format (kml_output_filename cfg) = OK texts.

Local Abbreviation boundary := (boundary session_list).
Local Abbreviation driver_inv := (driver_inv cfg session_list csv_rows).
Local Abbreviation between_rows := (between_rows cfg session_list csv_rows m).
Local Abbreviation document_inv := (document_inv cfg session_list csv_rows).
Local Abbreviation documents_between_rows :=
  (documents_between_rows cfg session_list csv_rows m).

Lemma start_session_documents i st w st' w' :
  between_rows i st w →
  document_inv (bool_decide (boundary (session_index st) < i)) i st w →
  start_session cfg session_list st w = (OK st', w') →
  document_inv true i st' w'.
Proof.
  intros [_ [Hrow [b Hb] Hstart _ _ _ _ _ _]] [Hclosed Hnames Hcurrent].
  pose proof (boundary_lookup _ _ _ Hb) as Hbd. rewrite Hbd in *.
  unfold start_session, index, mbind, IO_bind, lift. rewrite Hb, Hrow.
  destruct (Nat.eqb_spec b i) as [->|Hne].
  - rewrite (open_kml_session_file_run _ _ _ _ Hpattern).
    fold (session_file cfg (session_index st)). intros [= <- <-].
    split; cbn [session_index files].
    + intros j c Hj. rewrite lookup_insert_ne by (apply session_file_ne; lia).
      by apply Hclosed.
    + intros name.
      destruct (decide (name = session_file cfg (session_index st))) as [->|Hname].
      * by eauto.
      * rewrite lookup_insert_ne by done. by apply Hnames.
    + intros _. rewrite lookup_insert_eq, Hbd, Nat.sub_diag, take_0. simpl.
      by rewrite string_app_nil_r.
  - intros [= <- <-]. split; [done|done|]. intros _. rewrite Hbd.
    apply Hcurrent, bool_decide_eq_true_2. lia.
Qed.

Lemma write_row_documents i st w r st' w' :
  csv_rows !! i = Some r →
  driver_inv true i i st w →
  document_inv true i st w →
  write_row cfg st r w = (OK st', w') →
  document_inv true (i + 1) st' w'.
Proof.
  intros Hr [_ [b Hb] Hstart _ _ _ _ _ (_ & Hopen & Hkml & _)]
    [Hclosed Hnames Hcurrent].
  pose proof (boundary_lookup _ _ _ Hb) as Hbd. rewrite Hbd in *.
  pose proof (session_prefix_snoc csv_rows _ _ _ Hstart Hr) as Hsnoc.
  specialize (Hcurrent eq_refl).
  unfold write_row, mbind, IO_bind, lift, record_of.
  pose proof (records_text_snoc cfg (take (i - b) (drop b csv_rows)) r) as Htext.
  unfold record_of in Htext.
  destruct (generate_kml_coordinate_string cfg r) as [[record|]|]; [| |done].
  - rewrite Hkml, file_write_run by (rewrite Hopen; by apply elem_of_singleton).
    intros [= <- <-]. split; cbn [session_index files].
    + intros j c Hj. rewrite lookup_alter_ne by (apply session_file_ne; lia).
      by apply Hclosed.
    + intros name Hname. apply lookup_alter_is_Some in Hname. by apply Hnames.
    + intros _. rewrite lookup_alter_eq, Hcurrent, Hbd, Hsnoc, Htext. simpl.
      by rewrite string_app_assoc.
  - intros [= <- <-]. split; cbn [session_index]; [done|done|].
    intros _. rewrite Hcurrent, Hbd, Hsnoc, Htext. by rewrite string_app_nil_r.
Qed.

Lemma end_session_documents i st w st' w' :
  driver_inv true i (i + 1) st w →
  document_inv true (i + 1) st w →
  end_session session_list st w = (OK st', w') →
  document_inv (bool_decide (boundary (session_index st') < i + 1)) (i + 1)
    (next_row st') w'.
Proof.
  intros [Hrow [b Hb] Hstart Hnext _ _ _ _ (Hfile & Hopen & Hkml & Hname)]
    [Hclosed Hnames Hcurrent].
  pose proof (boundary_lookup _ _ _ Hb) as Hbd. rewrite Hbd in *.
  specialize (Hcurrent eq_refl).
  unfold end_session, index, mbind, IO_bind, lift.
  destruct (session_list !! (session_index st + 1)) as [b'|] eqn:Hb'; [|done].
  pose proof (boundary_lookup _ _ _ Hb') as Hbd'.
  rewrite Hrow.
  destruct (Nat.eqb_spec b' (i + 1)) as [->|Hne].
  - assert (session_document cfg session_list csv_rows (session_index st)
            = (kml_header (session_id (session_index st + 1))
                 +:+ records_text cfg (take (i + 1 - b) (drop b csv_rows)))
              +:+ kml_footer) as Hdoc.
    { unfold session_document, session_rows. rewrite Hb, Hb'.
      by rewrite string_app_assoc. }
    rewrite Hkml, close_session_file_run by (rewrite Hopen; by apply elem_of_singleton).
    set (file := session_file cfg (session_index st)) in *.
    assert (∀ j, j ≠ session_index st → file ≠ session_file cfg j) as Hfile_ne.
    { intros j Hj. apply session_file_ne. lia. }
    destruct (kml_rows_written_this_session st =? 0).
    + rewrite Hname, delete_session_file_run
        by (cbn [files]; rewrite lookup_alter_eq; by apply fmap_is_Some).
      intros [= <- <-].
      cbn [next_row session_index files]. rewrite Hbd'.
      rewrite bool_decide_eq_false_2 by lia.
      split; cbn [next_row session_index files]; [| |done].
      * intros j c Hj. destruct (decide (j = session_index st)) as [->|Hjk].
        -- fold file. by rewrite lookup_delete_eq.
        -- rewrite lookup_delete_ne, lookup_alter_ne by auto.
           apply Hclosed. lia.
      * intros name Hsome. apply lookup_delete_is_Some in Hsome as [_ Hsome].
        apply lookup_alter_is_Some in Hsome.
        destruct (Hnames _ Hsome) as (j & Hj & ->). exists j. split; [lia|done].
    + intros [= <- <-].
      cbn [next_row session_index files]. rewrite Hbd'.
      rewrite bool_decide_eq_false_2 by lia.
      split; cbn [next_row session_index files]; [| |done].
      * intros j c Hj. destruct (decide (j = session_index st)) as [->|Hjk].
        -- fold file. rewrite lookup_alter_eq, Hcurrent, Hdoc. simpl.
           by intros [= <-].
        -- rewrite lookup_alter_ne by auto. apply Hclosed. lia.
      * intros name Hsome. apply lookup_alter_is_Some in Hsome.
        destruct (Hnames _ Hsome) as (j & Hj & ->). exists j. split; [lia|done].
  - intros [= <- <-]. cbn [next_row session_index]. rewrite Hbd.
    rewrite bool_decide_eq_true_2 by lia.
    split; cbn [next_row session_index]; [done|done|]. intros _. by rewrite Hbd.
Qed.

Lemma driver_body_documents i st w r :
  csv_rows !! i = Some r → documents_between_rows i st w →
  match driver_body cfg session_list st r w with
  | (OK st', w') => documents_between_rows (i + 1) st' w'
  | (Raise e, w') => True
  end.
Proof.
  intros Hr [Hbetween Hdoc].
  destruct (start_session_spec cfg session_list csv_rows m texts Hpattern i st w Hbetween)
    as (st1 & w1 & Hstart & Hinv1).
  pose proof (start_session_documents _ _ _ _ _ Hbetween Hdoc Hstart) as Hdoc1.
  unfold driver_body, mbind, IO_bind. rewrite Hstart.
  pose proof (write_row_spec cfg session_list csv_rows m texts Hfirst Hinc Hlast Hpattern
                i st1 w1 r Hr Hinv1) as Hinv2.
  destruct (write_row cfg st1 r w1) as [[st2|e] w2] eqn:Hwrite; [|done].
  pose proof (write_row_documents _ _ _ _ _ _ Hr Hinv1 Hdoc1 Hwrite) as Hdoc2.
  assert (i < length csv_rows) as Hi by (eapply lookup_lt_Some; eauto).
  pose proof (end_session_spec cfg session_list csv_rows m texts Hfirst Hinc Hlast Hpattern
                i st2 w2 Hi Hinv2) as Hnext.
  destruct (end_session session_list st2 w2) as [[st3|e] w3] eqn:Hend; [|done].
  split; [done|].
  by apply (end_session_documents _ _ _ _ _ Hinv2 Hdoc2 Hend).
Qed.

Lemma driver_loop_documents st w :
  m ≤ length csv_rows →
  for_each_io (driver_body cfg session_list) driver_init csv_rows empty_directory
    = (OK st, w) →
  ∀ name c, files w !! name = Some c ↔
    ∃ j, j + 1 < length session_list
      ∧ 0 < records_in cfg (session_rows session_list csv_rows j)
      ∧ name = session_file cfg j
      ∧ c = session_document cfg session_list csv_rows j.
Proof.
  intros Hm Hrun.
  pose proof (for_each_io_invariant (driver_body cfg session_list) csv_rows
                documents_between_rows (λ _ _, True) driver_body_documents
                driver_init empty_directory) as Hloop.
  rewrite Hrun in Hloop.
  destruct Hloop as [Hbetween [Hclosed Hnames _]].
  { split; [by apply between_rows_init|].
    split; cbn [driver_init session_index empty_directory files].
    - intros j c Hj. lia.
    - intros name [c Hc]. by rewrite lookup_empty in Hc.
    - rewrite (boundary_lookup _ _ _ Hfirst).
      by rewrite bool_decide_eq_false_2 by lia. }
  pose proof Hbetween as Hend.
  apply between_rows_end in Hend as (Hrow & Hlen & Hk & _ & _ & Hfiles); [|done..].
  assert (files w !! session_file cfg (session_index st) = None) as Hnone.
  { destruct Hbetween as [_ [_ [b Hb] _ _ _ _ _ _ Hcur]].
    rewrite (boundary_lookup _ _ _ Hb) in Hcur.
    rewrite last_lookup in Hlast.
    replace (pred (length session_list)) with (session_index st) in Hlast by lia.
    assert (b = m) as -> by congruence.
    rewrite bool_decide_eq_false_2 in Hcur by lia. by destruct Hcur. }
  intros name c. split.
  - intros Hc. destruct (Hnames name ltac:(by eexists)) as (j & Hj & ->).
    assert (j ≠ session_index st) by (intros ->; by rewrite Hnone in Hc).
    exists j. split_and!; [lia| |done|].
    + apply Hfiles; [lia|by eexists].
    + apply Hclosed in Hc; [done|lia].
  - intros (j & Hj & Hrecords & -> & ->).
    apply Hfiles in Hrecords as [c Hc]; [|done]. rewrite Hc. f_equal.
    apply Hclosed in Hc; [done|lia].
Qed.

End Documents.

(** X8. After a completed run the output directory holds exactly the
    documents of the sessions with a record: for each of them the file of
    its number with the header for its identifier, the records of its
    accepted rows in the order of the input, and the footer. *)
Theorem session_documents (cfg : Config) (csv_rows : list Row)
    (session_list : list nat) (stats : Statistics) (w : World) :
  get_session_list csv_rows = OK session_list →
  convert_userdatalog_csv_to_kml cfg csv_rows empty_directory
    = (OK (Some stats), w) →
  ∀ name c, files w !! name = Some c ↔
    ∃ j, j + 1 < length session_list
      ∧ 0 < records_in cfg (session_rows session_list csv_rows j)
      ∧ name = session_file cfg j
      ∧ c = session_document cfg session_list csv_rows j.
Proof.
  intros Hlist Hrun.
  destruct (get_session_list_shape _ _ Hlist) as (Hfirst & Hinc & Hlast & Hm).
  pose proof (convert_outcome cfg _ _ Hlist) as Hout. rewrite Hrun in Hout.
  destruct Hout as (_ & _ & _ & _ & _ & [texts Hpattern]).
  rewrite (convert_with_session_list _ _ _ _ Hlist) in Hrun.
  destruct (for_each_io _ _ _ _) as [[st|?] w'] eqn:Hloop; [|done].
  destruct (truediv _ (csv_row_index st)); [|done].
  destruct (truediv _ _); [|done].
  injection Hrun as _ <-.
  by eapply driver_loop_documents.
Qed.

(** X9. The early return of the driver is never taken: whatever the input,
    the driver does not end with the message for an empty session index. *)
Theorem early_return_unreachable (cfg : Config) (csv_rows : list Row) (w : World) :
  (convert_userdatalog_csv_to_kml cfg csv_rows w).1 ≠ OK None.
Proof.
  destruct (get_session_list csv_rows) as [session_list|e] eqn:Hlist.
  - rewrite (convert_with_session_list _ _ _ _ Hlist).
    destruct (for_each_io _ _ _ _) as [[st|?] w']; [|done].
    destruct (truediv _ (csv_row_index st)); [|done].
    by destruct (truediv _ _).
  - unfold convert_userdatalog_csv_to_kml, mbind, IO_bind, lift.
    by rewrite Hlist.
Qed.

(** X10. The indexer returns a list exactly when every session time
    present is a number. *)
Theorem indexer_returns_iff (csv_rows : list Row) :
  (∃ session_list, get_session_list csv_rows = OK session_list)
  ↔ ¬ bad_session_time csv_rows.
Proof.
  split; [|apply get_session_list_returns].
  intros [session_list Hlist]. unfold get_session_list in Hlist.
  destruct (for_each indexer_body indexer_init csv_rows) eqn:Hloop; [|done].
  by eapply indexer_loop_parses.
Qed.

Lemma time_breaks_none (ts : list float) : ∀ prev,
  (∀ p a b, (prev :: ts) !! p = Some a → (prev :: ts) !! S p = Some b →
            (b <? a)%float = false) →
  time_breaks prev ts = 0.
Proof.
  induction ts as [|t ts IH]; intros prev Hsteady; [done|].
  simpl. rewrite (Hsteady 0 prev t) by done.
  rewrite IH; [done|]. intros p a b Ha Hb. by apply (Hsteady (S p)).
Qed.

(** X11. A log whose session time never goes back is one session: when
    no session time is below the one before it, the session list is 0 and
    the sentinel. *)
Theorem steady_time_one_session (csv_rows : list Row) (session_list : list nat) :
  get_session_list csv_rows = OK session_list →
  considered csv_rows ≠ [] →
  (∀ p a b, session_times csv_rows !! p = Some a →
            session_times csv_rows !! S p = Some b → (b <? a)%float = false) →
  session_list = [0; length (considered csv_rows)].
Proof.
  intros Hlist Hrows Hsteady.
  destruct (get_session_list_shape _ _ Hlist) as (Hfirst & _ & Hlast & _).
  unfold get_session_list in Hlist.
  pose proof (indexer_loop csv_rows indexer_init indexer_inv_init) as Hloop.
  destruct (for_each indexer_body indexer_init csv_rows) as [st|]; [|done].
  destruct Hloop as (_ & _ & Hlen & Hcount). simpl in Hlist, Hcount.
  injection Hlist as <-.
  destruct (session_times csv_rows) as [|t ts] eqn:Hts.
  { simpl in Hlen. by destruct (considered csv_rows). }
  simpl in Hcount. rewrite time_breaks_none in Hcount by done.
  destruct (ix_session_list st) as [|b [|b' l]]; [done| |done].
  simpl in Hfirst, Hlast. by injection Hfirst as ->; injection Hlast as ->.
Qed.

End Properties.

(** * The converter on concrete logs

    The properties above at the logs of the section on concrete logs, with
    the built-ins read as decimal literals. *)

(** ** Session indexer *)

Lemma monotonic_break_example_witness :
  @get_session_list decimal_builtins
    ((λ t, log_row t "1" "7" "45.5" "-122.1" "100")
       <$> ["1"; "2"; "3"; "0"; "1"; "5"; "2"; "9"])
  = OK [0; 3; 6; 8]%nat.
Proof.
  apply (@monotonic_break_example decimal_builtins _
           ["1"; "2"; "3"; "0"; "1"; "5"; "2"; "9"]).
  - reflexivity.
  - repeat constructor; done.
Defined.

(** C2, on the code: a row without session time shifts the numbering. In
    the log whose session times read blank, 5, 1 the indexer reaches the
    second row with index 0 and returns the boundaries 0, 1 and the
    sentinel 2, while the driver reaches the second row with index 1: the
    boundary 1 is the third row to the indexer and the second row to the
    driver, which then opens a third file at the sentinel and stops on
    [IndexError]. *)
Theorem row_index_mismatch :
  let csv_rows := (λ t, log_row t "1" "7" "45.5" "-122.1" "100") <$> [""; "5"; "1"] in
  @get_session_list decimal_builtins csv_rows = OK [0; 1; 2]%nat
  ∧ @indexer_row_index decimal_builtins csv_rows 1 = OK 0%nat
  ∧ @driver_row_index decimal_builtins log_config [0; 1; 2]%nat csv_rows 1 = OK 1%nat
  ∧ (run_log csv_rows).1 = Raise IndexError
  ∧ elements (open_files (run_log csv_rows).2) = ["output/log.csv_S003.kml"].
Proof. vm_compute. done. Qed.

(** ** Row validator *)

Lemma accepted_record_witness :
  ∃ lon lat alt feet,
    Some "-122.1" = Some lon ∧ Some "45.5" = Some lat
    ∧ Some "100" = Some alt ∧ decimal_float alt = Some feet
    ∧ "-122.1,45.5,8579357290140795p-48" +:+ CRLF =
        lon +:+ "," +:+ lat +:+ ","
          +:+ str_binary (feet * METERS_PER_FOOT)%float +:+ CRLF
    ∧ (feet = 100%float → (feet * METERS_PER_FOOT)%float = 0x1.e7ae147ae147bp+4%float).
Proof.
  apply (@accepted_record decimal_builtins log_config
           (log_row "1" "1" "7" "45.5" "-122.1" "100")).
  vm_compute. reflexivity.
Defined.

Lemma default_thresholds_witness :
  @generate_kml_coordinate_string decimal_builtins log_config
    (log_row "1" "0" "7" "45.5" "-122.1" "100") = OK None
  ∧ @generate_kml_coordinate_string decimal_builtins log_config
      (log_row "1" "2" "3" "45.5" "-122.1" "100") = OK None
  ∧ @generate_kml_coordinate_string decimal_builtins log_config
      (log_row "1" "good" "3" "45.5" "-122.1" "100") = Raise ValueError.
Proof.
  split_and!.
  - apply (proj1 (@default_thresholds decimal_builtins "output/log.csv"
                    (log_row "1" "0" "7" "45.5" "-122.1" "100")) "0" 0%Z);
      [reflexivity|reflexivity|lia].
  - apply (proj1 (proj2 (@default_thresholds decimal_builtins "output/log.csv"
                           (log_row "1" "2" "3" "45.5" "-122.1" "100"))) "3" 3%Z);
      [reflexivity|reflexivity|lia|].
    right. by exists "2", 2%Z.
  - apply (proj2 (proj2 (@default_thresholds decimal_builtins "output/log.csv"
                           (log_row "1" "good" "3" "45.5" "-122.1" "100")))
             "3" 3%Z "good");
      [reflexivity|reflexivity|lia|done|reflexivity|reflexivity|done|reflexivity].
Defined.

(** C6 as it is written fails: a satellite count of 3 does not get the row
    rejected when the fix quality is no integer; [ValueError] is raised. *)
Lemma low_satellites_not_always_rejected :
  ¬ (∀ csv_row s n,
       col_num_sats csv_row = Some s → decimal_int s = Some n → (n < 4)%Z →
       @generate_kml_coordinate_string decimal_builtins log_config csv_row = OK None).
Proof.
  intros Hclaim.
  specialize (Hclaim (log_row "1" "good" "3" "45.5" "-122.1" "100") "3" 3%Z
                eq_refl eq_refl eq_refl).
  vm_compute in Hclaim. discriminate Hclaim.
Qed.



Lemma latitude_longitude_verbatim_witness :
  decimal_float "north" = None
  ∧ @generate_kml_coordinate_string decimal_builtins log_config
      (log_row "1" "1" "7" "north" "east of here" "100")
    = OK (Some ("east of here,north,8579357290140795p-48" +:+ CRLF)).
Proof.
  split; [reflexivity|].
  apply (@latitude_longitude_verbatim decimal_builtins log_config
           (log_row "1" "1" "7" "north" "east of here" "100")
           "1" "7" "north" "east of here" "100" 1%Z 7%Z);
    try done; try reflexivity; simpl; lia.
Defined.

(** ** Conversion driver *)

Lemma empty_sessions_discarded_witness :
  (files (run_log three_sessions).2 !! "output/log.csv_S002.kml" = None
   ∧ @records_in decimal_builtins log_config
       (session_rows [0; 2; 4; 5]%nat three_sessions 1) = 0%nat)
  ∧ ∃ stats, (run_log three_sessions).1 = OK (Some stats)
      ∧ stat_sessions_detected stats = 3%nat
      ∧ stat_sessions_written stats = 2%nat.
Proof.
  pose proof (@empty_sessions_discarded decimal_builtins log_config
                three_sessions [0; 2; 4; 5]%nat eq_refl eq_refl)
    as [Hempty Hstats].
  split.
  - apply (Hempty 1%nat); [simpl; lia|reflexivity].
  - eexists. split; [vm_compute; reflexivity|].
    split; reflexivity.
Defined.

(** C4, on the code: an empty session keeps its file. In the log whose
    session times read blank, 5, 1 the validator rejects the first and
    the third row and accepts the second. The third row is a session of
    its own, and every row of it is rejected; the indexer numbers it 1, as
    it skips the first row, and returns the boundaries 0, 1 and the
    sentinel 2. The driver reaches it with index 2, takes the sentinel for
    a boundary and opens a third file for it, and stops on [IndexError]
    where it looks for the boundary after the sentinel: the file is never
    closed nor deleted. After the run it is in the directory with the
    header and no record, and the file of the second session is there as
    well. *)
Theorem empty_session_left_behind :
  let csv_rows := [log_row "" "0" "7" "45.5" "-122.1" "100";
                   log_row "5" "1" "7" "45.6" "-122.2" "200";
                   log_row "1" "0" "7" "45.7" "-122.3" "300"] in
  @get_session_list decimal_builtins csv_rows = OK [0; 1; 2]%nat
  ∧ (@rejected decimal_builtins log_config <$> csv_rows) = [true; false; true]
  ∧ @session_rows [0; 1; 2]%nat (@considered csv_rows) 1
    = [log_row "1" "0" "7" "45.7" "-122.3" "300"]
  ∧ (run_log csv_rows).1 = Raise IndexError
  ∧ files (run_log csv_rows).2 !! "output/log.csv_S003.kml"
    = Some "<name>S003</name><coordinates>"
  ∧ files (run_log csv_rows).2 !! "output/log.csv_S002.kml"
    = Some ("<name>S002</name><coordinates>-122.2,45.6,8579357290140795p-47"
              +:+ CRLF +:+ "</coordinates>")
  ∧ elements (open_files (run_log csv_rows).2) = ["output/log.csv_S003.kml"].
Proof. vm_compute. done. Qed.

(** The pattern [main] builds for a log whose name has a lone brace:
    [str.format] raises at the first row, before a file is opened. *)
Example lone_brace_pattern :
  @convert_userdatalog_csv_to_kml decimal_builtins
    (main_config "output/lo{g.csv") three_sessions empty_directory
  = (Raise ValueError, empty_directory).
Proof. vm_compute. done. Qed.


(** ** Further properties *)

Lemma session_boundaries_witness :
  3%nat ∈ [0; 3; 6; 8]%nat ↔
    3%nat = length (@session_times decimal_builtins eight_rows)
    ∨ ((3 < length (@session_times decimal_builtins eight_rows))%nat
       ∧ starts_session (@session_times decimal_builtins eight_rows) 3).
Proof.
  exact (@session_boundaries decimal_builtins eight_rows [0; 3; 6; 8]%nat
           eq_refl 3%nat).
Defined.

Lemma first_boundary_witness :
  [0; 2; 4; 5]%nat !! 0%nat = Some 0%nat
  ∧ (@considered three_sessions = [] ↔ [0; 2; 4; 5]%nat = [0%nat]).
Proof.
  exact (@first_boundary decimal_builtins three_sessions [0; 2; 4; 5]%nat eq_refl).
Defined.

Lemma session_files_distinct_witness :
  @session_file decimal_builtins log_config 0
    ≠ @session_file decimal_builtins log_config 1.
Proof. apply session_files_distinct. lia. Defined.

Lemma statistics_accounting_witness :
  ∃ stats w,
    run_log three_sessions = (OK (Some stats), w)
    ∧ stat_csv_rows_read stats = 5%nat
    ∧ stat_kml_rows_written stats = 3%nat
    ∧ (stat_csv_rows_rejected stats + stat_kml_rows_written stats = 5)%nat
    ∧ (1 ≤ stat_sessions_detected stats)%nat
    ∧ (stat_sessions_written stats ≤ stat_sessions_detected stats)%nat.
Proof.
  destruct (run_log three_sessions) as [[[stats|]|e] w] eqn:Hrun.
  - exists stats, w. split; [done|].
    exact (@statistics_accounting decimal_builtins log_config three_sessions
             stats w Hrun).
  - vm_compute in Hrun. discriminate Hrun.
  - vm_compute in Hrun. discriminate Hrun.
Defined.

Lemma session_documents_witness :
  ∃ stats w,
    run_log three_sessions = (OK (Some stats), w)
    ∧ files w !! "output/log.csv_S003.kml"
      = Some ("<name>S003</name><coordinates>-122.5,45.9,5362098306337997p-45"
                +:+ CRLF +:+ "</coordinates>")
    ∧ files w !! "output/log.csv_S002.kml" = None.
Proof.
  destruct (run_log three_sessions) as [[[stats|]|e] w] eqn:Hrun.
  - exists stats, w. split; [done|].
    pose proof (@session_documents decimal_builtins log_config three_sessions
                  [0; 2; 4; 5]%nat stats w eq_refl Hrun) as Hdocs.
    split.
    + apply Hdocs. exists 2%nat. split_and!.
      * simpl. lia.
      * vm_compute. lia.
      * reflexivity.
      * vm_compute. reflexivity.
    + apply eq_None_not_Some. intros [c Hc].
      apply Hdocs in Hc as (j & Hj & Hrecords & Hname & _).
      assert (j = 1%nat) as ->.
      { by apply (@session_file_inj decimal_builtins log_config 2 (j + 1))
          in Hname; lia. }
      vm_compute in Hrecords. lia.
  - vm_compute in Hrun. discriminate Hrun.
  - vm_compute in Hrun. discriminate Hrun.
Defined.

Lemma row_index_difference_witness :
  1%nat = (0 + length (filter (λ r, blank (col_session_time r) = true)
                         (take 1 blank_first_rows)))%nat.
Proof.
  apply (@row_index_difference decimal_builtins log_config [0; 1; 2]%nat
           blank_first_rows 1%nat 0%nat 1%nat); vm_compute; reflexivity.
Defined.

Lemma steady_time_one_session_witness :
  [0; 3]%nat = [0%nat; length (@considered steady_rows)].
Proof.
  apply (@steady_time_one_session decimal_builtins steady_rows [0; 3]%nat).
  - reflexivity.
  - done.
  - intros [|[|[|p]]] a b Ha Hb; vm_compute in Ha, Hb; simplify_eq;
      vm_compute; reflexivity.
Defined.
